(** * FIREDETECTION: selection of the nearest available users

    A shallow embedding of [tasks/SelectUsers/task.py] (class
    [TaskSelectUsers]) and the properties of its selection pipeline:
    rejection accounting, ordering, the diameter boundary, the infinity
    sentinel of a failed OSRM call, truncation to [num_users].

    Python floats are IEEE 754 binary64 numbers: they are modelled by Rocq's
    primitive floats, whose operations are the same ones.  Python's dicts
    are finite maps ([gmap]); its lists are lists. *)

From Stdlib Require Import ZArith Floats String List Lia.
From Stdlib Require Import Sorting.Sorted Sorting.Permutation.
From stdpp Require Import gmap strings list pretty.
Import ListNotations.

Local Open Scope Z_scope.
Local Open Scope list_scope.

(* ===================================================================== *)
(** * Floating-point comparisons *)
(* ===================================================================== *)

Module PyFloat.

(** [float('inf')]. *)
Definition inf : float := infinity.

(** Python's [x > y] on two floats. *)
Definition gt (x y : float) : bool := (y <? x)%float.

(** Python's [x == y] on two floats. *)
Definition eq (x y : float) : bool := (x =? y)%float.

(** Python's [x <= y] on two floats. *)
Definition le (x y : float) : bool := (x <=? y)%float.


End PyFloat.

Arguments PyFloat.gt : simpl never.
Arguments PyFloat.eq : simpl never.
Arguments PyFloat.le : simpl never.

(* ===================================================================== *)
(** * Data model *)
(* ===================================================================== *)

(** A key of [osrm_results_map]: the user's ['id'] (a JSON integer or
    string) or, without one, its position in the list of users. *)
Inductive user_key :=
  | KInt (z : Z)
  | KStr (s : string).

#[global] Instance user_key_eq_dec : EqDecision user_key.
Proof. solve_decision. Defined.

#[global] Instance user_key_countable : Countable user_key.
Proof.
  refine (inj_countable'
            (fun k => match k with KInt z => inl z | KStr s => inr s end)
            (fun x => match x with inl z => KInt z | inr s => KStr s end) _).
  intros []; reflexivity.
Defined.

(** [str(user_key)]. *)
Definition py_str (k : user_key) : string :=
  match k with
  | KInt z => pretty z
  | KStr s => s
  end.

(** One entry of [mock_users.json], as the selection reads it: each field
    is what [user.get(key)] returns, [None] for an absent key (the
    selection reads an absent ['available'] as [True] and an absent ['id']
    as the position of the user).  The other keys of the JSON object are
    carried in [extra] and never read. *)
Record user := User {
  user_id : option user_key;
  latitude : option float;
  longitude : option float;
  status : option string;
  available : option bool;
  extra : list (string * string)
}.

(** A coordinate, [(lat, lon)] in decimal degrees. *)
Definition coord : Type := float * float.

(** The instance attributes set by [TaskSelectUsers.__init__].  The
    profile is [None] when the workflow variable it is read from is unset. *)
Record TaskSelectUsers := {
  osrm_url : string;
  selection_diameter_km : option float;
  user_profile_selection : option string;
  filter_only_available : bool;
  sort_by : string;
  osrm_timeout_s : Z;
  euclidian_filter_km : option float
}.

(** The first route of an OSRM answer: [data['distance']] in metres and
    [data['duration']] in seconds; [None] for a key that is missing or
    whose value is not a number. *)
Record osrm_route := {
  distance : option float;
  duration : option float
}.

(** The JSON object of an OSRM answer ([resp.json()]): its ['routes'] and
    the rest of the body. *)
Record osrm_json := {
  routes : list osrm_route;
  body : string
}.

(** The request built by [calculate_distance]: the pieces of the URL
    (coordinates as [lon,lat]) and the timeout. *)
Record osrm_request := {
  req_base : string;
  req_profile : option string;
  req_origin : float * float;
  req_dest : float * float;
  req_timeout : Z
}.

(** What lies outside the program: the C mathematical library, the users
    file, the network and the clock.
    - [radians], [sin], [cos], [atan2] and [pow] are the values the C
      library computes; when Python's [math] module raises instead of
      returning them is said by [math_sin], [math_cos], [math_sqrt] and
      [float_pow] below.
    - [requests_get idx q] is the outcome of the request [q] issued while
      the user at position [idx] is processed: [None] when [requests.get],
      [raise_for_status] or [resp.json()] raises.
    - [users_file] is the content of [mock_users.json], [None] when reading
      or parsing it raises.
    - [time_*] are the readings of [time.time()]. *)
Record world := {
  radians : float -> float;
  sin : float -> float;
  cos : float -> float;
  atan2 : float -> float -> float;
  pow : float -> float -> float;
  users_file : option (list user);
  requests_get : nat -> osrm_request -> option osrm_json;
  time_total_start : float;
  time_total_end : float;
  time_user_start : nat -> float;
  time_user_end : nat -> float
}.

(** [full_response]: the answer's JSON object, or the empty dict [{}].
    An answer that went through [calculate_distance] has a ['routes'] key,
    so it is not empty: [if full_response:] tells the two apart. *)
Inductive full_response :=
  | EmptyDict
  | Json (j : osrm_json).

(** An entry of [osrm_results_map]. *)
Record route_result := {
  distance_km : float;
  duration_s : float
}.

(** An element of [candidates]: [(user, distance_km, duration_s,
    full_response)]. *)
Definition candidate : Type := user * float * float * full_response.

Definition cand_user (c : candidate) : user := c.1.1.1.
Definition cand_dist (c : candidate) : float := c.1.1.2.
Definition cand_dur (c : candidate) : float := c.1.2.

(** An element of [osrm_response_values]. *)
Record response_value := {
  rv_user_id : string;
  rv_osrm_response : osrm_json
}.

(** The [filtering_metrics] dict. *)
Record filtering_metrics := {
  m_total_users : nat;
  m_invalid_coordinates : nat;
  m_status_filtered : nat;
  m_haversine_filtered : nat;
  m_osrm_errors : nat;
  m_diameter_filtered : nat;
  m_candidates : nat;
  m_selected : nat
}.

(* ===================================================================== *)
(** * The methods of [TaskSelectUsers] *)
(* ===================================================================== *)

(** [get_all_users]: the users file, [[]] when loading it fails. *)
Definition get_all_users (w : world) : list user :=
  match users_file w with
  | Some us => us
  | None => []
  end.

(** ** The [math] module

    A computation that may raise is an [option]: [None] stands for an
    exception that leaves the method ([select_nearest_available_users]
    has no handler of its own). *)

(** [math.sin(x)]: [ValueError] on an infinite argument. *)
Definition math_sin (w : world) (x : float) : option float :=
  if is_infinity x then None else Some (sin w x).

(** [math.cos(x)]: [ValueError] on an infinite argument. *)
Definition math_cos (w : world) (x : float) : option float :=
  if is_infinity x then None else Some (cos w x).

(** [math.sqrt(x)]: [ValueError] on a negative argument. *)
Definition math_sqrt (x : float) : option float :=
  if (x <? 0)%float then None else Some (sqrt x).

(** [x ** y] on floats: [OverflowError] when finite operands give an
    infinite result. *)
Definition float_pow (w : world) (x y : float) : option float :=
  let r := pow w x y in
  if is_finite x && is_finite y && is_infinity r then None else Some r.

(** [haversine_distance]. *)
Definition haversine_distance (w : world) (loc1 loc2 : coord)
  : option float :=
  let R := 6371%float in
  let lat1 := radians w loc1.1 in
  let lon1 := radians w loc1.2 in
  let lat2 := radians w loc2.1 in
  let lon2 := radians w loc2.2 in
  let dlat := (lat2 - lat1)%float in
  let dlon := (lon2 - lon1)%float in
  s1 ← math_sin w (dlat / 2)%float;
  p1 ← float_pow w s1 2%float;
  c1 ← math_cos w lat1;
  c2 ← math_cos w lat2;
  s2 ← math_sin w (dlon / 2)%float;
  p2 ← float_pow w s2 2%float;
  let a := (p1 + c1 * c2 * p2)%float in
  q1 ← math_sqrt a;
  q2 ← math_sqrt (1 - a)%float;
  let c := (2 * atan2 w q1 q2)%float in
  Some (R * c)%float.

(** [calculate_distance]: the first route of the answer, in km and
    seconds, with the answer; on any exception the sentinel
    [(inf, inf, {})]. *)
Definition calculate_distance (self : TaskSelectUsers) (w : world)
    (idx : nat) (loc1 loc2 : coord) : float * float * full_response :=
  let url := {| req_base := osrm_url self;
                req_profile := user_profile_selection self;
                req_origin := (loc1.2, loc1.1);
                req_dest := (loc2.2, loc2.1);
                req_timeout := osrm_timeout_s self |} in
  match requests_get w idx url with
  | Some full =>
      match routes full with
      | data :: _ =>
          match distance data, duration data with
          | Some metres, Some seconds =>
              ((metres / 1000)%float, seconds, Json full)
          | _, _ => (PyFloat.inf, PyFloat.inf, EmptyDict)
          end
      | [] => (PyFloat.inf, PyFloat.inf, EmptyDict)
      end
  | None => (PyFloat.inf, PyFloat.inf, EmptyDict)
  end.

(** The local variables of [select_nearest_available_users] that its
    first loop updates. *)
Record loop_state := {
  candidates : list candidate;
  osrm_results_map : gmap user_key route_result;
  osrm_response_values : list response_value;
  user_computation_times : gmap user_key float;
  status_filtered : nat;
  haversine_filtered : nat;
  diameter_filtered : nat;
  osrm_errors : nat;
  invalid_coordinates : nat
}.

(** The state before the loop: empty collections, counters at 0. *)
Definition loop_init : loop_state :=
  {| candidates := [];
     osrm_results_map := ∅;
     osrm_response_values := [];
     user_computation_times := ∅;
     status_filtered := 0;
     haversine_filtered := 0;
     diameter_filtered := 0;
     osrm_errors := 0;
     invalid_coordinates := 0 |}.

(** One iteration of [for idx, user in enumerate(users)]; every
    [continue] is a branch that returns the state reached so far. *)
Definition loop_body (self : TaskSelectUsers) (w : world)
    (alert_location : coord) (st : loop_state) (idx : nat) (u : user)
  : option loop_state :=
  match latitude u, longitude u with
  | Some lat, Some lon =>
      let loc := (lat, lon) in
      (* Filter by user status *)
      if negb (bool_decide (status u = user_profile_selection self)) then
        Some {| candidates := candidates st;
                osrm_results_map := osrm_results_map st;
                osrm_response_values := osrm_response_values st;
                user_computation_times := user_computation_times st;
                status_filtered := S (status_filtered st);
                haversine_filtered := haversine_filtered st;
                diameter_filtered := diameter_filtered st;
                osrm_errors := osrm_errors st;
                invalid_coordinates := invalid_coordinates st |}
      else
        (* Pre-filter by straight-line distance *)
        too_far ←
          match euclidian_filter_km self with
          | Some km =>
              haversine_dist ← haversine_distance w alert_location loc;
              Some (PyFloat.gt haversine_dist km)
          | None => Some false
          end;
        if too_far : bool then
          Some {| candidates := candidates st;
                  osrm_results_map := osrm_results_map st;
                  osrm_response_values := osrm_response_values st;
                  user_computation_times := user_computation_times st;
                  status_filtered := status_filtered st;
                  haversine_filtered := S (haversine_filtered st);
                  diameter_filtered := diameter_filtered st;
                  osrm_errors := osrm_errors st;
                  invalid_coordinates := invalid_coordinates st |}
        else
          (* Calculate route metrics *)
          let '(dist, dur, full) :=
            calculate_distance self w idx alert_location loc in
          (* Check for OSRM errors *)
          let errors :=
            if PyFloat.eq dist PyFloat.inf || PyFloat.eq dur PyFloat.inf
            then S (osrm_errors st) else osrm_errors st in
          let user_computation_time :=
            (time_user_end w idx - time_user_start w idx)%float in
          (* Store OSRM result for this user *)
          let key :=
            match user_id u with
            | Some i => i
            | None => KInt (Z.of_nat idx)
            end in
          let results :=
            <[key := {| distance_km := dist; duration_s := dur |}]>
              (osrm_results_map st) in
          let times :=
            <[key := user_computation_time]> (user_computation_times st) in
          let responses :=
            match full with
            | Json j =>
                osrm_response_values st
                  ++ [{| rv_user_id := py_str key; rv_osrm_response := j |}]
            | EmptyDict => osrm_response_values st
            end in
          (* Filter by diameter *)
          if match selection_diameter_km self with
             | Some diameter => PyFloat.gt dist (diameter / 2)%float
             | None => false
             end
          then
            Some {| candidates := candidates st;
                    osrm_results_map := results;
                    osrm_response_values := responses;
                    user_computation_times := times;
                    status_filtered := status_filtered st;
                    haversine_filtered := haversine_filtered st;
                    diameter_filtered := S (diameter_filtered st);
                    osrm_errors := errors;
                    invalid_coordinates := invalid_coordinates st |}
          else
            Some {| candidates := candidates st ++ [(u, dist, dur, full)];
                    osrm_results_map := results;
                    osrm_response_values := responses;
                    user_computation_times := times;
                    status_filtered := status_filtered st;
                    haversine_filtered := haversine_filtered st;
                    diameter_filtered := diameter_filtered st;
                    osrm_errors := errors;
                    invalid_coordinates := invalid_coordinates st |}
  | _, _ =>
      Some {| candidates := candidates st;
              osrm_results_map := osrm_results_map st;
              osrm_response_values := osrm_response_values st;
              user_computation_times := user_computation_times st;
              status_filtered := status_filtered st;
              haversine_filtered := haversine_filtered st;
              diameter_filtered := diameter_filtered st;
              osrm_errors := osrm_errors st;
              invalid_coordinates := S (invalid_coordinates st) |}
  end.

(** [for idx, user in enumerate(users)], from position [idx] on. *)
Fixpoint for_users (self : TaskSelectUsers) (w : world)
    (alert_location : coord) (idx : nat) (users : list user)
    (st : loop_state) : option loop_state :=
  match users with
  | [] => Some st
  | u :: rest =>
      st' ← loop_body self w alert_location st idx u;
      for_users self w alert_location (S idx) rest st'
  end.

(** Python's [sorted(l, key=key)] on float keys: a stable sort that
    compares keys with [<].  An element is put in front of the first one
    that is not strictly smaller, so equal keys keep the order of [l].
    When no key is a NaN there is one stable ascending arrangement of [l]
    ([py_sorted_unique] below), so this is the list that [sorted]
    returns. *)
Fixpoint insert_by {A : Type} (key : A -> float) (x : A) (l : list A)
  : list A :=
  match l with
  | [] => [x]
  | y :: rest =>
      if (key y <? key x)%float then y :: insert_by key x rest
      else x :: y :: rest
  end.

Definition py_sorted {A : Type} (key : A -> float) (l : list A) : list A :=
  foldr (insert_by key) [] l.

(** The candidates in the order of the configured key. *)
Definition sort_candidates (self : TaskSelectUsers)
    (cands : list candidate) : list candidate :=
  if bool_decide (sort_by self = "travel_time"%string)
  then py_sorted cand_dur cands
  else py_sorted cand_dist cands.

(** The second loop: skip the unavailable users when asked to, append,
    and [break] once [len(selected) >= num_users]. *)
Fixpoint select_loop (self : TaskSelectUsers) (num_users : Z)
    (selected : list user) (sorted_list : list candidate) : list user :=
  match sorted_list with
  | [] => selected
  | c :: rest =>
      if filter_only_available self
         && negb (default true (available (cand_user c)))
      then select_loop self num_users selected rest
      else
        let selected' := selected ++ [cand_user c] in
        if Z.of_nat (length selected') >=? num_users then selected'
        else select_loop self num_users selected' rest
  end.

(** The tuple returned by [select_nearest_available_users]. *)
Record selection := {
  r_selected : list user;
  r_osrm_results_map : gmap user_key route_result;
  r_osrm_response_values : list response_value;
  r_total_computation_time : float;
  r_user_computation_times : gmap user_key float;
  r_filtering_metrics : filtering_metrics
}.

(** [select_nearest_available_users]; [None] when an exception of the
    [math] module leaves it. *)
Definition select_nearest_available_users (self : TaskSelectUsers)
    (w : world) (alert_location : coord) (num_users : Z)
  : option selection :=
  let users := get_all_users w in
  st ← for_users self w alert_location 0 users loop_init;
  let sorted_list := sort_candidates self (candidates st) in
  let selected := select_loop self num_users [] sorted_list in
  let total_computation_time :=
    (time_total_end w - time_total_start w)%float in
  Some {| r_selected := selected;
          r_osrm_results_map := osrm_results_map st;
          r_osrm_response_values := osrm_response_values st;
          r_total_computation_time := total_computation_time;
          r_user_computation_times := user_computation_times st;
          r_filtering_metrics :=
            {| m_total_users := length users;
               m_invalid_coordinates := invalid_coordinates st;
               m_status_filtered := status_filtered st;
               m_haversine_filtered := haversine_filtered st;
               m_osrm_errors := osrm_errors st;
               m_diameter_filtered := diameter_filtered st;
               m_candidates := length (candidates st);
               m_selected := length selected |} |}.

(* ===================================================================== *)
(** * The pipeline, stage by stage *)
(* ===================================================================== *)

(** Where the first loop leaves a user: rejected by one of the three
    tests that come before the OSRM call, stopped by an exception of
    [haversine_distance], or sent to the OSRM with its location. *)
Inductive stage :=
  | InvalidCoordinates
  | StatusFiltered
  | HaversineFiltered
  | HaversineRaised
  | Scored (loc : coord).

Definition stage_of (self : TaskSelectUsers) (w : world)
    (alert_location : coord) (u : user) : stage :=
  match latitude u, longitude u with
  | Some lat, Some lon =>
      if bool_decide (status u = user_profile_selection self) then
        match euclidian_filter_km self with
        | Some km =>
            match haversine_distance w alert_location (lat, lon) with
            | Some h =>
                if PyFloat.gt h km then HaversineFiltered
                else Scored (lat, lon)
            | None => HaversineRaised
            end
        | None => Scored (lat, lon)
        end
      else StatusFiltered
  | _, _ => InvalidCoordinates
  end.

Definition is_invalid (s : stage) : bool :=
  match s with InvalidCoordinates => true | _ => false end.
Definition is_status_filtered (s : stage) : bool :=
  match s with StatusFiltered => true | _ => false end.
Definition is_haversine_filtered (s : stage) : bool :=
  match s with HaversineFiltered => true | _ => false end.
Definition is_raised (s : stage) : bool :=
  match s with HaversineRaised => true | _ => false end.
Definition is_scored (s : stage) : bool :=
  match s with Scored _ => true | _ => false end.

(** How many of [users] end in a stage that satisfies [p]. *)
Definition count_stage (p : stage -> bool) (self : TaskSelectUsers)
    (w : world) (alert_location : coord) (users : list user) : nat :=
  length (List.filter (fun u => p (stage_of self w alert_location u)) users).

(** A user that reached the OSRM call: its position, and what
    [calculate_distance] returned for it. *)
Record scored := {
  sc_idx : nat;
  sc_user : user;
  sc_dist : float;
  sc_dur : float;
  sc_full : full_response
}.

(** The OSRM call for the user [u] at position [idx] and location [loc]. *)
Definition score (self : TaskSelectUsers) (w : world)
    (alert_location : coord) (idx : nat) (u : user) (loc : coord) : scored :=
  let '(dist, dur, full) :=
    calculate_distance self w idx alert_location loc in
  {| sc_idx := idx; sc_user := u; sc_dist := dist;
     sc_dur := dur; sc_full := full |}.

(** The users that reach the OSRM call, in the order of the list, the
    first of [users] being at position [idx]. *)
Fixpoint scored_users (self : TaskSelectUsers) (w : world)
    (alert_location : coord) (idx : nat) (users : list user)
  : list scored :=
  match users with
  | [] => []
  | u :: rest =>
      match stage_of self w alert_location u with
      | Scored loc => [score self w alert_location idx u loc]
      | _ => []
      end ++ scored_users self w alert_location (S idx) rest
  end.

(** [user.get('id', idx)]. *)
Definition key_of (idx : nat) (u : user) : user_key :=
  default (KInt (Z.of_nat idx)) (user_id u).

Definition sc_key (s : scored) : user_key := key_of (sc_idx s) (sc_user s).

Definition sc_result (s : scored) : route_result :=
  {| distance_km := sc_dist s; duration_s := sc_dur s |}.

Definition sc_time (w : world) (s : scored) : float :=
  (time_user_end w (sc_idx s) - time_user_start w (sc_idx s))%float.

Definition sc_candidate (s : scored) : candidate :=
  (sc_user s, sc_dist s, sc_dur s, sc_full s).

(** The entry of [osrm_response_values] of a scored user, if it has one. *)
Definition sc_response (s : scored) : option response_value :=
  match sc_full s with
  | Json j => Some {| rv_user_id := py_str (sc_key s); rv_osrm_response := j |}
  | EmptyDict => None
  end.

(** The test that counts an OSRM error. *)
Definition sc_error (s : scored) : bool :=
  PyFloat.eq (sc_dist s) PyFloat.inf || PyFloat.eq (sc_dur s) PyFloat.inf.

(** The test of the diameter filter on a route distance. *)
Definition diameter_rejects (self : TaskSelectUsers) (dist : float) : bool :=
  match selection_diameter_km self with
  | Some diameter => PyFloat.gt dist (diameter / 2)%float
  | None => false
  end.

(** The OSRM call raises, or its answer has no usable first route. *)
Definition osrm_call_fails (self : TaskSelectUsers) (w : world)
    (idx : nat) (loc1 loc2 : coord) : bool :=
  match requests_get w idx
          {| req_base := osrm_url self;
             req_profile := user_profile_selection self;
             req_origin := (loc1.2, loc1.1);
             req_dest := (loc2.2, loc2.1);
             req_timeout := osrm_timeout_s self |} with
  | Some full =>
      match routes full with
      | data :: _ =>
          match distance data, duration data with
          | Some _, Some _ => false
          | _, _ => true
          end
      | [] => true
      end
  | None => true
  end.

(** The second loop does not skip this candidate. *)
Definition passes_availability (self : TaskSelectUsers) (c : candidate)
  : bool :=
  negb (filter_only_available self
        && negb (default true (available (cand_user c)))).

(** The users of the candidates that the second loop does not skip. *)
Definition available_users (self : TaskSelectUsers) (l : list candidate)
  : list user :=
  cand_user <$> List.filter (passes_availability self) l.

(** The candidates whose users the second loop selects: the first
    [num_users], and one at least, of those it does not skip. *)
Definition chosen_candidates (self : TaskSelectUsers) (num_users : Z)
    (sorted_list : list candidate) : list candidate :=
  take (Z.to_nat (Z.max 1 num_users))
       (List.filter (passes_availability self) sorted_list).

(** The state the first loop reaches from [st] over [users], described
    from the list of the scored users. *)
Definition loop_final (self : TaskSelectUsers) (w : world)
    (alert_location : coord) (idx : nat) (users : list user)
    (st : loop_state) : loop_state :=
  let sc := scored_users self w alert_location idx users in
  {| candidates :=
       candidates st
         ++ (sc_candidate
               <$> List.filter
                     (fun s => negb (diameter_rejects self (sc_dist s))) sc);
     osrm_results_map :=
       foldl (fun m s => <[sc_key s := sc_result s]> m)
             (osrm_results_map st) sc;
     osrm_response_values :=
       osrm_response_values st ++ omap sc_response sc;
     user_computation_times :=
       foldl (fun m s => <[sc_key s := sc_time w s]> m)
             (user_computation_times st) sc;
     status_filtered :=
       status_filtered st
       + count_stage is_status_filtered self w alert_location users;
     haversine_filtered :=
       haversine_filtered st
       + count_stage is_haversine_filtered self w alert_location users;
     diameter_filtered :=
       diameter_filtered st
       + length (List.filter
                   (fun s => diameter_rejects self (sc_dist s)) sc);
     osrm_errors := osrm_errors st + length (List.filter sc_error sc);
     invalid_coordinates :=
       invalid_coordinates st
       + count_stage is_invalid self w alert_location users |}%nat.

(** The first loop on the users file. *)
Definition filter_users (self : TaskSelectUsers) (w : world)
    (alert_location : coord) : option loop_state :=
  for_users self w alert_location 0 (get_all_users w) loop_init.

(** Non-decreasing keys along a list. *)
Definition ascending {A : Type} (key : A -> float) (l : list A) : Prop :=
  Sorted (fun a b => PyFloat.le (key a) (key b) = true) l.

(** The elements of [l] whose key equals [k], in the order of [l]. *)
Definition with_key {A : Type} (key : A -> float) (k : float) (l : list A)
  : list A :=
  List.filter (fun x => PyFloat.eq (key x) k) l.

(** The user has both coordinates. *)
Definition has_coordinates (u : user) : bool :=
  match latitude u, longitude u with
  | Some _, Some _ => true
  | _, _ => false
  end.

(** The same configuration with another [filter_only_available]. *)
Definition set_filter_only_available (b : bool) (self : TaskSelectUsers)
  : TaskSelectUsers :=
  {| osrm_url := osrm_url self;
     selection_diameter_km := selection_diameter_km self;
     user_profile_selection := user_profile_selection self;
     filter_only_available := b;
     sort_by := sort_by self;
     osrm_timeout_s := osrm_timeout_s self;
     euclidian_filter_km := euclidian_filter_km self |}.


(** The request for the route from [loc1] to [loc2], as
    [calculate_distance] builds it. *)
Definition request_of (self : TaskSelectUsers) (loc1 loc2 : coord)
  : osrm_request :=
  {| req_base := osrm_url self;
     req_profile := user_profile_selection self;
     req_origin := (loc1.2, loc1.1);
     req_dest := (loc2.2, loc2.1);
     req_timeout := osrm_timeout_s self |}.

(** The same world with another network. *)
Definition with_network
    (net : nat -> osrm_request -> option osrm_json) (w : world) : world :=
  {| radians := radians w;
     sin := sin w;
     cos := cos w;
     atan2 := atan2 w;
     pow := pow w;
     users_file := users_file w;
     requests_get := net;
     time_total_start := time_total_start w;
     time_total_end := time_total_end w;
     time_user_start := time_user_start w;
     time_user_end := time_user_end w |}.


(** The call for this scored user failed: its response is [{}]. *)
Definition sc_failed (s : scored) : bool :=
  match sc_full s with
  | EmptyDict => true
  | Json _ => false
  end.

(* ===================================================================== *)
(** * [tasks/UserResponse/task.py] *)
(* ===================================================================== *)

(** The workflow variables read at the top of the module:
    [variables.get] gives [None] for a variable that is not set, and
    [case_sensitive] is the comparison of its variable with ["true"]. *)
Record response_config := {
  accept_string : option string;
  reject_string : option string;
  case_sensitive : bool;
  default_response : option string
}.

(** [s.lower()] on a workflow variable: [AttributeError] on [None]. *)
Definition lower_of (lower : string -> string) (s : option string)
  : option string :=
  match s with
  | Some x => Some (lower x)
  | None => None
  end.

(** [check_user_response]; [lower] is Python's [str.lower], and [None]
    the [AttributeError] of calling it on an unset variable. *)
Definition check_user_response (cfg : response_config)
    (lower : string -> string) (user_response : string) : option bool :=
  resp_accept_reject ←
    (if case_sensitive cfg
     then Some (user_response, accept_string cfg, reject_string cfg)
     else
       accept ← lower_of lower (accept_string cfg);
       reject ← lower_of lower (reject_string cfg);
       Some (lower user_response, Some accept, Some reject));
  let '(resp, accept, reject) := resp_accept_reject in
  if bool_decide (Some resp = accept) then Some true
  else if bool_decide (Some resp = reject) then Some false
  else if bool_decide (default_response cfg = Some "accept"%string)
  then Some true
  else if bool_decide (default_response cfg = Some "reject"%string)
  then Some false
  else Some false.

(** [user_with_response]: a copy of the user's dict with the key
    ['accepted']. *)
Record user_with_response := {
  uwr_user : user;
  uwr_accepted : bool
}.

(** The threshold [0.8] of the acceptance test, as the double it is. *)
Definition acceptance_rate : float := 0x1.999999999999ap-1%float.

(** The loop of [process_selected_users] from the user at position [idx]
    on; [random idx] is the value of [random.random()] drawn for that
    user. *)
Fixpoint simulate_responses (random : nat -> float) (idx : nat)
    (selected_users : list user) (accepted_users : list user_with_response)
  : list user_with_response :=
  match selected_users with
  | [] => accepted_users
  | u :: rest =>
      let accepted := (random idx <? acceptance_rate)%float in
      simulate_responses random (S idx) rest
        (if accepted
         then accepted_users ++ [{| uwr_user := u; uwr_accepted := true |}]
         else accepted_users)
  end.

(** [process_selected_users]; [loaded] is what [json.loads] makes of its
    argument, [None] when it raises: the handler then returns [[]]. *)
Definition process_selected_users (random : nat -> float)
    (loaded : option (list user)) : list user_with_response :=
  match loaded with
  | Some selected_users => simulate_responses random 0 selected_users []
  | None => []
  end.

(** The positions of [users], from [idx] on, whose draw is below the
    threshold. *)
Fixpoint accepted_from (random : nat -> float) (idx : nat)
    (users : list user) : list user :=
  match users with
  | [] => []
  | u :: rest =>
      if (random idx <? acceptance_rate)%float
      then u :: accepted_from random (S idx) rest
      else accepted_from random (S idx) rest
  end.

(* ===================================================================== *)
(** * Concrete runs *)
(* ===================================================================== *)

Module Examples.

Definition alert : coord := (48.5, 1.5)%float.

(** A world with the given users file and network.  No run below
    configures the straight-line pre-filter, so the mathematical
    functions are never called; the clock ticks once per reading. *)
Definition world_of (file : option (list user))
    (net : nat -> osrm_request -> option osrm_json) : world :=
  {| radians := fun x => x;
     sin := fun x => x;
     cos := fun x => x;
     atan2 := fun y x => y;
     pow := fun x y => x;
     users_file := file;
     requests_get := net;
     time_total_start := 0;
     time_total_end := 8;
     time_user_start := fun idx => PrimFloat.of_uint63 (Uint63.of_nat idx);
     time_user_end := fun idx => PrimFloat.of_uint63 (Uint63.of_nat (S idx)) |}.

(** An OSRM answer with one route. *)
Definition answer (metres seconds : float) : osrm_json :=
  {| routes := [{| distance := Some metres; duration := Some seconds |}];
     body := "Ok" |}.

Definition user_a : user :=
  {| user_id := Some (KInt 1); latitude := Some 48.75%float;
     longitude := Some 1.75%float; status := Some "driving"%string;
     available := Some true; extra := [("name", "a")]%string |}.

Definition user_b : user :=
  {| user_id := Some (KInt 2); latitude := Some 48.25%float;
     longitude := Some 1.25%float; status := Some "driving"%string;
     available := Some true; extra := [("name", "b")]%string |}.


(** A user without status and without id. *)
Definition user_c : user :=
  {| user_id := None; latitude := Some 48.75%float;
     longitude := Some 1.75%float; status := None;
     available := None; extra := [] |}.

(** A user marked unavailable. *)
Definition user_d : user :=
  {| user_id := Some (KStr "d"); latitude := Some 48.75%float;
     longitude := Some 1.75%float; status := Some "driving"%string;
     available := Some false; extra := [] |}.

(** A user without longitude, and one that walks. *)
Definition user_e : user :=
  {| user_id := Some (KInt 5); latitude := Some 48.75%float;
     longitude := None; status := Some "driving"%string;
     available := Some true; extra := [] |}.

Definition user_f : user :=
  {| user_id := Some (KInt 6); latitude := Some 48.75%float;
     longitude := Some 1.75%float; status := Some "walking"%string;
     available := Some true; extra := [] |}.

Definition user_g : user :=
  {| user_id := None; latitude := Some 48.125%float;
     longitude := Some 1.125%float; status := Some "driving"%string;
     available := None; extra := [] |}.

(** [a] is 5 km and 300 s away, [b] 2 km and 600 s. *)
Definition net_ab (idx : nat) (q : osrm_request) : option osrm_json :=
  match idx with
  | O => Some (answer 5000 300)
  | _ => Some (answer 2000 600)
  end.



(** The requests for the users of [world_mixed]: 2 km for [d], none for
    [a], 5 km for [b], 12 km for [g]. *)
Definition net_mixed (idx : nat) (q : osrm_request) : option osrm_json :=
  match idx with
  | 2%nat => Some (answer 2000 600)
  | 3%nat => None
  | 4%nat => Some (answer 5000 300)
  | _ => Some (answer 12000 900)
  end.

Definition world_ab : world := world_of (Some [user_a; user_b]) net_ab.
Definition world_mixed : world :=
  world_of (Some [user_e; user_f; user_d; user_a; user_b; user_g])
           net_mixed.
Definition world_no_file : world := world_of None net_ab.

Definition config (diameter : option float) (profile : option string)
    (only_available : bool) (key : string) : TaskSelectUsers :=
  {| osrm_url := "http://osrm";
     selection_diameter_km := diameter;
     user_profile_selection := profile;
     filter_only_available := only_available;
     sort_by := key;
     osrm_timeout_s := 5;
     euclidian_filter_km := None |}.

Definition by_distance : TaskSelectUsers :=
  config (Some 10%float) (Some "driving"%string) true "distance".
Definition by_travel_time : TaskSelectUsers :=
  config (Some 10%float) (Some "driving"%string) true "travel_time".
Definition no_diameter : TaskSelectUsers :=
  config None (Some "driving"%string) true "distance".


(** Lower case of the ASCII letters, for the runs of
    [check_user_response] on ASCII strings. *)
Definition lower_ascii (c : Ascii.ascii) : Ascii.ascii :=
  let n := Ascii.nat_of_ascii c in
  if (65 <=? n)%nat && (n <=? 90)%nat
  then Ascii.ascii_of_nat (n + 32) else c.

Fixpoint lower (s : string) : string :=
  match s with
  | EmptyString => EmptyString
  | String c rest => String (lower_ascii c) (lower rest)
  end.

Definition yes_no (sensitive : bool) (default : option string)
  : response_config :=
  {| accept_string := Some "Yes"%string;
     reject_string := Some "No"%string;
     case_sensitive := sensitive;
     default_response := default |}.

(** The same string accepts and rejects. *)
Definition same_strings : response_config :=
  {| accept_string := Some "ok"%string;
     reject_string := Some "OK"%string;
     case_sensitive := false;
     default_response := Some "reject"%string |}.

(** The rejection string is not set. *)
Definition no_reject (sensitive : bool) : response_config :=
  {| accept_string := Some "Yes"%string;
     reject_string := None;
     case_sensitive := sensitive;
     default_response := None |}.

(** Draws 0.5, 0.875, 0.25, 0.8, ...: the second and the fourth are not
    below the threshold. *)
Definition draws (idx : nat) : float :=
  match idx with
  | 0%nat => 0.5%float
  | 1%nat => 0.875%float
  | 2%nat => 0.25%float
  | _ => acceptance_rate
  end.

End Examples.

(* ===================================================================== *)
(** * Order of the floats *)
(* ===================================================================== *)

Section FloatOrder.

(** Swapping the operands of the IEEE comparison swaps its result. *)
Lemma SFcompare_swap (x y : spec_float) :
  SFcompare y x = CompOpp <$> SFcompare x y.
Proof.
  destruct x as [sx|sx| |sx mx ex], y as [sy|sy| |sy my ey];
    try destruct sx; try destruct sy; try reflexivity.
  - simpl. rewrite (Z.compare_antisym ey ex).
    destruct (ey ?= ex)%Z; simpl; try reflexivity.
    change (Pcompare mx my Eq) with (mx ?= my)%positive.
    change (Pcompare my mx Eq) with (my ?= mx)%positive.
    rewrite (Pos.compare_antisym my mx).
    destruct (my ?= mx)%positive; reflexivity.
  - simpl. rewrite (Z.compare_antisym ey ex).
    destruct (ey ?= ex)%Z; simpl; try reflexivity.
    change (Pcompare mx my Eq) with (mx ?= my)%positive.
    change (Pcompare my mx Eq) with (my ?= mx)%positive.
    rewrite (Pos.compare_antisym my mx).
    destruct (my ?= mx)%positive; reflexivity.
Qed.

(** Two values that compare equal are both zeros, or the same value. *)
Lemma SFcompare_Eq_inv (x y : spec_float) :
  SFcompare x y = Some Eq ->
  (exists sx sy, x = S754_zero sx /\ y = S754_zero sy)
  \/ (x = y /\ x <> S754_nan).
Proof.
  destruct x as [sx|sx| |sx mx ex], y as [sy|sy| |sy my ey];
    try destruct sx; try destruct sy; simpl; try discriminate;
    intros H; try (left; eauto; fail); try (right; split; congruence).
  - destruct (ex ?= ey)%Z eqn:He; try discriminate.
    apply Z.compare_eq in He.
    destruct (Pcompare mx my Eq) eqn:Hm; try discriminate.
    apply Pos.compare_eq in Hm. subst. right; split; congruence.
  - destruct (ex ?= ey)%Z eqn:He; try discriminate.
    apply Z.compare_eq in He.
    destruct (Pcompare mx my Eq) eqn:Hm; try discriminate.
    apply Pos.compare_eq in Hm. subst. right; split; congruence.
Qed.

Lemma SFcompare_refl (x : spec_float) :
  x <> S754_nan -> SFcompare x x = Some Eq.
Proof.
  destruct x as [s|s| |s m e]; try destruct s; simpl; try congruence.
  - intros _. rewrite Z.compare_refl.
    change (Pcompare m m Eq) with (m ?= m)%positive.
    now rewrite Pos.compare_refl.
  - intros _. rewrite Z.compare_refl.
    change (Pcompare m m Eq) with (m ?= m)%positive.
    now rewrite Pos.compare_refl.
Qed.

Lemma SFcompare_nan_l (y : spec_float) : SFcompare S754_nan y = None.
Proof. reflexivity. Qed.

Lemma SFcompare_nan_r (x : spec_float) : SFcompare x S754_nan = None.
Proof. destruct x as [s|s| |s m e]; reflexivity. Qed.

Lemma SFcompare_Some (x y : spec_float) :
  x <> S754_nan -> y <> S754_nan -> exists c, SFcompare x y = Some c.
Proof.
  destruct x as [sx|sx| |sx mx ex], y as [sy|sy| |sy my ey];
    simpl; try congruence; eauto.
Qed.

(** A float is not a NaN exactly when its specification is not. *)
Lemma is_nan_false (x : float) :
  is_nan x = false <-> Prim2SF x <> S754_nan.
Proof.
  unfold is_nan. rewrite FloatAxioms.eqb_spec. unfold SFeqb. split.
  - intros H E. rewrite E in H. discriminate.
  - intros H. now rewrite (SFcompare_refl _ H).
Qed.

(** [x < y] gives [x <= y]. *)
Lemma ltb_leb (x y : float) :
  (x <? y)%float = true -> (x <=? y)%float = true.
Proof.
  rewrite FloatAxioms.ltb_spec, FloatAxioms.leb_spec. unfold SFltb, SFleb.
  now destruct (SFcompare _ _) as [[]|].
Qed.

(** Without NaN the order is total: not [y < x] gives [x <= y]. *)
Lemma not_ltb_leb (x y : float) :
  is_nan x = false -> is_nan y = false ->
  (y <? x)%float = false -> (x <=? y)%float = true.
Proof.
  rewrite !is_nan_false, FloatAxioms.ltb_spec, FloatAxioms.leb_spec. unfold SFltb, SFleb.
  intros Hx Hy. rewrite (SFcompare_swap (Prim2SF x) (Prim2SF y)).
  destruct (SFcompare_Some _ _ Hx Hy) as [c ->].
  now destruct c.
Qed.

(** Two floats equal to a third are not strictly ordered. *)
Lemma eqb_not_ltb (x y k : float) :
  (y =? k)%float = true -> (x =? k)%float = true ->
  (y <? x)%float = false.
Proof.
  rewrite !FloatAxioms.eqb_spec, FloatAxioms.ltb_spec. unfold SFeqb, SFltb.
  destruct (SFcompare (Prim2SF y) (Prim2SF k)) as [[]|] eqn:Hy;
    try discriminate.
  destruct (SFcompare (Prim2SF x) (Prim2SF k)) as [[]|] eqn:Hx;
    try discriminate.
  intros _ _.
  apply SFcompare_Eq_inv in Hy, Hx.
  destruct Hy as [(s1 & s2 & -> & Hk)|[-> Hn]].
  - destruct Hx as [(s3 & s4 & -> & _)|[-> _]]; [reflexivity|].
    now rewrite Hk.
  - destruct Hx as [(s3 & s4 & -> & ->)|[-> _]]; [reflexivity|].
    now rewrite (SFcompare_refl _ Hn).
Qed.

(** No float is strictly below itself. *)
Lemma ltb_irrefl (x : float) : (x <? x)%float = false.
Proof.
  rewrite FloatAxioms.ltb_spec. unfold SFltb.
  destruct (Prim2SF x) as [s|s| |s m e] eqn:E.
  - now rewrite SFcompare_refl.
  - now rewrite SFcompare_refl.
  - reflexivity.
  - now rewrite SFcompare_refl.
Qed.

(** The IEEE [<=] is transitive. *)
Lemma SFleb_trans (x y z : spec_float) :
  SFleb x y = true -> SFleb y z = true -> SFleb x z = true.
Proof.
  unfold SFleb.
  destruct x as [sx|sx| |sx mx ex], y as [sy|sy| |sy my ey],
    z as [sz|sz| |sz mz ez];
    try destruct sx; try destruct sy; try destruct sz;
    cbn; try (intros; reflexivity); try (intros; discriminate);
    change (Pcompare mx my Eq) with (mx ?= my)%positive;
    change (Pcompare my mz Eq) with (my ?= mz)%positive;
    change (Pcompare mx mz Eq) with (mx ?= mz)%positive;
    destruct (Z.compare_spec ex ey), (Z.compare_spec ey ez),
      (Z.compare_spec ex ez); cbn;
    try (intros; reflexivity); try (intros; discriminate); try lia;
    destruct (Pos.compare_spec mx my), (Pos.compare_spec my mz),
      (Pos.compare_spec mx mz); cbn;
    try (intros; reflexivity); try (intros; discriminate); lia.
Qed.

(** [<=] is transitive. *)
Lemma leb_trans (x y z : float) :
  (x <=? y)%float = true -> (y <=? z)%float = true ->
  (x <=? z)%float = true.
Proof. rewrite !FloatAxioms.leb_spec. apply SFleb_trans. Qed.

(** Two floats below each other are equal. *)
Lemma leb_antisym (x y : float) :
  (x <=? y)%float = true -> (y <=? x)%float = true ->
  (x =? y)%float = true.
Proof.
  rewrite !FloatAxioms.leb_spec, FloatAxioms.eqb_spec.
  unfold SFleb, SFeqb.
  rewrite (SFcompare_swap (Prim2SF x) (Prim2SF y)).
  now destruct (SFcompare (Prim2SF x) (Prim2SF y)) as [[]|].
Qed.

Lemma eqb_sym (x y : float) : (x =? y)%float = (y =? x)%float.
Proof.
  rewrite !FloatAxioms.eqb_spec. unfold SFeqb.
  rewrite (SFcompare_swap (Prim2SF x) (Prim2SF y)).
  now destruct (SFcompare (Prim2SF x) (Prim2SF y)) as [[]|].
Qed.

End FloatOrder.

(* ===================================================================== *)
(** * The first loop *)
(* ===================================================================== *)

Section FirstLoop.

Variables (self : TaskSelectUsers) (w : world) (alert_location : coord).

Lemma loop_state_eq (a b : loop_state) :
  candidates a = candidates b ->
  osrm_results_map a = osrm_results_map b ->
  osrm_response_values a = osrm_response_values b ->
  user_computation_times a = user_computation_times b ->
  status_filtered a = status_filtered b ->
  haversine_filtered a = haversine_filtered b ->
  diameter_filtered a = diameter_filtered b ->
  osrm_errors a = osrm_errors b ->
  invalid_coordinates a = invalid_coordinates b ->
  a = b.
Proof. destruct a, b; simpl; intros; subst; reflexivity. Qed.

Lemma loop_final_nil idx st : loop_final self w alert_location idx [] st = st.
Proof.
  apply loop_state_eq; unfold loop_final, count_stage; simpl;
    rewrite ?app_nil_r; try reflexivity; lia.
Qed.

(** One iteration, read from the stage of the user. *)
Lemma loop_body_final idx u st :
  loop_body self w alert_location st idx u
  = if is_raised (stage_of self w alert_location u) then None
    else Some (loop_final self w alert_location idx [u] st).
Proof.
  unfold loop_body, loop_final, count_stage.
  cbn [scored_users List.filter length].
  unfold stage_of.
  destruct (latitude u) as [lat|], (longitude u) as [lon|];
    try (cbn; f_equal; apply loop_state_eq; cbn; rewrite ?app_nil_r;
         try reflexivity; lia).
  destruct (bool_decide (status u = user_profile_selection self));
    [|cbn; f_equal; apply loop_state_eq; cbn; rewrite ?app_nil_r;
      try reflexivity; lia].
  destruct (euclidian_filter_km self) as [km|].
  - destruct (haversine_distance w alert_location (lat, lon)) as [h|];
      [|reflexivity].
    cbn [mbind option_bind].
    destruct (PyFloat.gt h km);
      [cbn; f_equal; apply loop_state_eq; cbn; rewrite ?app_nil_r;
       try reflexivity; lia|].
    cbn [is_raised]. unfold score.
    destruct (calculate_distance self w idx alert_location (lat, lon))
      as [[dist dur] full].
    unfold diameter_rejects, sc_error, sc_response, sc_key, key_of.
    cbn [sc_dist sc_dur sc_full sc_idx sc_user List.filter app].
    destruct (selection_diameter_km self) as [diameter|];
      [destruct (PyFloat.gt dist (diameter / 2))|];
      destruct (PyFloat.eq dist PyFloat.inf || PyFloat.eq dur PyFloat.inf);
      destruct full; destruct (user_id u) eqn:Hid;
      cbn; f_equal; apply loop_state_eq; unfold sc_result; cbn;
      rewrite ?app_nil_r, ?Hid; try reflexivity; lia.
  - cbn [mbind option_bind is_raised]. unfold score.
    destruct (calculate_distance self w idx alert_location (lat, lon))
      as [[dist dur] full].
    unfold diameter_rejects, sc_error, sc_response, sc_key, key_of.
    cbn [sc_dist sc_dur sc_full sc_idx sc_user List.filter app].
    destruct (selection_diameter_km self) as [diameter|];
      [destruct (PyFloat.gt dist (diameter / 2))|];
      destruct (PyFloat.eq dist PyFloat.inf || PyFloat.eq dur PyFloat.inf);
      destruct full; destruct (user_id u) eqn:Hid;
      cbn; f_equal; apply loop_state_eq; unfold sc_result; cbn;
      rewrite ?app_nil_r, ?Hid; try reflexivity; lia.
Qed.

Lemma scored_users_cons idx u rest :
  scored_users self w alert_location idx (u :: rest)
  = scored_users self w alert_location idx [u]
    ++ scored_users self w alert_location (S idx) rest.
Proof. cbn [scored_users]. now rewrite app_nil_r. Qed.

Lemma count_stage_cons p u rest :
  count_stage p self w alert_location (u :: rest)
  = (count_stage p self w alert_location [u]
     + count_stage p self w alert_location rest)%nat.
Proof.
  unfold count_stage. cbn [List.filter].
  destruct (p (stage_of self w alert_location u)); reflexivity.
Qed.

(** The description of the final state follows the loop. *)
Lemma loop_final_cons idx u rest st :
  loop_final self w alert_location (S idx) rest
    (loop_final self w alert_location idx [u] st)
  = loop_final self w alert_location idx (u :: rest) st.
Proof.
  apply loop_state_eq; unfold loop_final;
    cbn [candidates osrm_results_map osrm_response_values
         user_computation_times status_filtered haversine_filtered
         diameter_filtered osrm_errors invalid_coordinates];
    rewrite ?(scored_users_cons idx u rest), ?(count_stage_cons _ u rest),
      ?List.filter_app, ?fmap_app, ?omap_app, ?foldl_app, ?length_app,
      ?app_assoc;
    try reflexivity; lia.
Qed.

(** The first loop raises when [haversine_distance] does for one of the
    users, and otherwise ends in the state described by [loop_final]. *)
Lemma for_users_final users : forall idx st,
  for_users self w alert_location idx users st
  = if existsb (fun u => is_raised (stage_of self w alert_location u)) users
    then None
    else Some (loop_final self w alert_location idx users st).
Proof.
  induction users as [|u rest IH]; intros idx st.
  - cbn. now rewrite loop_final_nil.
  - cbn [for_users existsb]. rewrite loop_body_final.
    destruct (is_raised (stage_of self w alert_location u)); [reflexivity|].
    cbn [mbind option_bind orb]. rewrite IH.
    now rewrite loop_final_cons.
Qed.

Lemma for_users_Some users idx st st' :
  for_users self w alert_location idx users st = Some st' ->
  st' = loop_final self w alert_location idx users st.
Proof.
  rewrite for_users_final.
  destruct (existsb _ users); congruence.
Qed.



End FirstLoop.

(* ===================================================================== *)
(** * Sorting *)
(* ===================================================================== *)

Section Sorting.

Context {A : Type} (key : A -> float).

Lemma insert_by_perm x l : Permutation (insert_by key x l) (x :: l).
Proof.
  induction l as [|y l IH]; cbn; [reflexivity|].
  destruct (key y <? key x)%float; [|reflexivity].
  rewrite IH. apply perm_swap.
Qed.

Lemma py_sorted_perm l : Permutation (py_sorted key l) l.
Proof.
  induction l as [|x l IH]; cbn; [reflexivity|].
  fold (py_sorted key l). now rewrite insert_by_perm, IH.
Qed.

Lemma py_sorted_length l : length (py_sorted key l) = length l.
Proof. apply Permutation_length, py_sorted_perm. Qed.

Lemma py_sorted_elem x l : x ∈ py_sorted key l <-> x ∈ l.
Proof. now rewrite py_sorted_perm. Qed.

(** The head of a list after an insertion is the new element or the old
    head. *)
Lemma insert_by_HdRel (R : A -> A -> Prop) a x l :
  R a x -> HdRel R a l -> HdRel R a (insert_by key x l).
Proof.
  intros Hx Hl. destruct l as [|y l]; cbn; [now constructor|].
  destruct (key y <? key x)%float; constructor; [|assumption].
  now inversion Hl.
Qed.

Lemma insert_by_ascending x l :
  is_nan (key x) = false ->
  Forall (fun y => is_nan (key y) = false) l ->
  ascending key l -> ascending key (insert_by key x l).
Proof.
  unfold ascending. intros Hx Hl Hs.
  induction l as [|y l IH]; cbn.
  - repeat constructor.
  - inversion Hl as [|? ? Hy Hl']; subst.
    inversion Hs as [|? ? Hs' Hd]; subst.
    destruct (key y <? key x)%float eqn:E.
    + constructor; [now apply IH|].
      apply insert_by_HdRel; [|assumption].
      now apply ltb_leb.
    + constructor; [assumption|]. constructor.
      now apply not_ltb_leb.
Qed.

(** The keys of the sorted list do not decrease, when none is a NaN. *)
Lemma py_sorted_ascending l :
  Forall (fun y => is_nan (key y) = false) l ->
  ascending key (py_sorted key l).
Proof.
  induction l as [|x l IH]; intros H; cbn.
  - constructor.
  - inversion H as [|? ? Hx Hl]; subst. fold (py_sorted key l).
    apply insert_by_ascending; [assumption| |now apply IH].
    apply List.Forall_forall. intros y Hy.
    apply (proj1 (List.Forall_forall _ _) Hl).
    apply (Permutation_in _ (py_sorted_perm l)), Hy.
Qed.

Lemma insert_by_with_key k x l :
  with_key key k (insert_by key x l) = with_key key k (x :: l).
Proof.
  unfold with_key.
  induction l as [|y l IH]; cbn [insert_by]; [reflexivity|].
  destruct (key y <? key x)%float eqn:E; [|reflexivity].
  cbn [List.filter] in *. rewrite IH.
  destruct (PyFloat.eq (key y) k) eqn:Ey; [|reflexivity].
  destruct (PyFloat.eq (key x) k) eqn:Ex; [|reflexivity].
  unfold PyFloat.eq in *.
  now rewrite (eqb_not_ltb _ _ _ Ey Ex) in E.
Qed.

(** The sort is stable: the elements of one key keep their order. *)
Lemma py_sorted_stable k l :
  with_key key k (py_sorted key l) = with_key key k l.
Proof.
  induction l as [|x l IH]; [reflexivity|].
  cbn [py_sorted foldr]. fold (py_sorted key l).
  rewrite insert_by_with_key. unfold with_key in *. cbn [List.filter].
  now rewrite IH.
Qed.

Lemma filter_sublist (p : A -> bool) l : sublist (List.filter p l) l.
Proof.
  induction l as [|x l IH]; cbn [List.filter]; [constructor|].
  destruct (p x); now constructor.
Qed.

(** An ascending list is so between any two of its positions. *)
Lemma ascending_strongly l :
  ascending key l
  <-> StronglySorted (fun a b => PyFloat.le (key a) (key b) = true) l.
Proof.
  split; [|apply StronglySorted_Sorted].
  apply Sorted.Sorted_StronglySorted.
  intros a b c. apply leb_trans.
Qed.


(** There is one ascending arrangement of a list that keeps the order of
    the elements of equal key: it is what every stable sort returns. *)
Lemma stable_ascending_unique l1 : forall l2,
  Permutation l1 l2 ->
  (forall k, with_key key k l1 = with_key key k l2) ->
  ascending key l1 -> ascending key l2 ->
  l1 = l2.
Proof.
  induction l1 as [|x l1 IH]; intros l2 Hp Hk H1 H2.
  - now apply Permutation_nil in Hp.
  - destruct l2 as [|y l2].
    { apply Permutation_sym, Permutation_nil in Hp. discriminate. }
    assert (x = y) as <-.
    { assert (In x (y :: l2)) as [->|Hx2]
        by (apply (Permutation_in _ Hp); now left); [reflexivity|].
      assert (In y (x :: l1)) as [->|Hy1]
        by (apply (Permutation_in _ (Permutation_sym Hp)); now left);
        [reflexivity|].
      apply ascending_strongly in H1, H2.
      inversion H1 as [|? ? _ Hx]; subst.
      inversion H2 as [|? ? _ Hy]; subst.
      pose proof (proj1 (List.Forall_forall _ _) Hx _ Hy1) as Hxy.
      pose proof (proj1 (List.Forall_forall _ _) Hy _ Hx2) as Hyx.
      unfold PyFloat.le in *.
      pose proof (leb_antisym _ _ Hxy Hyx) as Exy.
      pose proof (leb_antisym _ _ (leb_trans _ _ _ Hyx Hxy)
                    (leb_trans _ _ _ Hyx Hxy)) as Eyy.
      specialize (Hk (key y)). unfold with_key, PyFloat.eq in Hk.
      cbn [List.filter] in Hk. rewrite Exy, Eyy in Hk. congruence. }
    f_equal. apply IH.
    + now apply Permutation_cons_inv in Hp.
    + intros k. specialize (Hk k). unfold with_key in *.
      cbn [List.filter] in Hk.
      destruct (PyFloat.eq (key x) k); congruence.
    + now inversion H1.
    + now inversion H2.
Qed.

(** [py_sorted] is that arrangement, when no key is a NaN. *)
Lemma py_sorted_unique l l' :
  Forall (fun y => is_nan (key y) = false) l ->
  Permutation l' l ->
  (forall k, with_key key k l' = with_key key k l) ->
  ascending key l' ->
  l' = py_sorted key l.
Proof.
  intros Hn Hp Hk Hs. apply stable_ascending_unique.
  - now rewrite py_sorted_perm.
  - intros k. now rewrite py_sorted_stable.
  - assumption.
  - now apply py_sorted_ascending.
Qed.

End Sorting.

(* ===================================================================== *)
(** * The second loop *)
(* ===================================================================== *)

Section SecondLoop.

Variable self : TaskSelectUsers.

(** The loop appends the first available users to [selected] until the
    list has [num_users] elements, and one at least. *)
Lemma select_loop_take (num_users : Z) l : forall selected,
  select_loop self num_users selected l
  = selected
    ++ take (Z.to_nat (Z.max 1 (num_users - Z.of_nat (length selected))))
            (available_users self l).
Proof.
  unfold available_users.
  induction l as [|c l IH]; intros selected; cbn [select_loop List.filter].
  - cbn. now rewrite take_nil, app_nil_r.
  - unfold passes_availability at 1.
    destruct (filter_only_available self
              && negb (default true (available (cand_user c)))); cbn [negb].
    + apply IH.
    + cbn [fmap list_fmap].
      destruct (Z.to_nat (Z.max 1 (num_users - Z.of_nat (length selected))))
        as [|k] eqn:Ek; [lia|].
      cbn [take]. rewrite length_app. cbn [length].
      destruct (Z.of_nat (length selected + 1) >=? num_users) eqn:E;
        rewrite Z.geb_leb in E;
        [apply Z.leb_le in E|apply Z.leb_gt in E].
      * assert (k = 0%nat) as -> by lia. now rewrite take_0.
      * rewrite IH, length_app. cbn [length].
        rewrite <- app_assoc. cbn [app]. do 3 f_equal. lia.
Qed.

Lemma select_loop_nil (num_users : Z) l :
  select_loop self num_users [] l
  = take (Z.to_nat (Z.max 1 num_users)) (available_users self l).
Proof.
  rewrite select_loop_take. cbn [length app]. do 2 f_equal. lia.
Qed.

Lemma select_loop_chosen (num_users : Z) l :
  select_loop self num_users [] l
  = cand_user <$> chosen_candidates self num_users l.
Proof.
  rewrite select_loop_nil. unfold available_users, chosen_candidates.
  now rewrite fmap_take.
Qed.

Lemma chosen_candidates_sublist (num_users : Z) l :
  sublist (chosen_candidates self num_users l) l.
Proof.
  unfold chosen_candidates.
  etransitivity; [apply sublist_take|apply filter_sublist].
Qed.

End SecondLoop.

(* ===================================================================== *)
(** * The scored users and the maps built from them *)
(* ===================================================================== *)

Section Scored.

Variables (self : TaskSelectUsers) (w : world) (alert_location : coord).

Lemma scored_users_app l1 : forall idx l2,
  scored_users self w alert_location idx (l1 ++ l2)
  = scored_users self w alert_location idx l1
    ++ scored_users self w alert_location (idx + length l1) l2.
Proof.
  induction l1 as [|u l1 IH]; intros idx l2; cbn [scored_users app length].
  - now rewrite Nat.add_0_r.
  - rewrite IH, <- app_assoc. do 3 f_equal. lia.
Qed.

(** The scored users are the users at some position whose stage is
    [Scored], with the OSRM call made at that position. *)
Lemma elem_of_scored_users users : forall idx s,
  s ∈ scored_users self w alert_location idx users <->
  exists i u loc,
    users !! i = Some u
    /\ stage_of self w alert_location u = Scored loc
    /\ s = score self w alert_location (idx + i) u loc.
Proof.
  induction users as [|u rest IH]; intros idx s; cbn [scored_users].
  - split; [intros H; inversion H|intros (i & u & loc & H & _)].
    now rewrite lookup_nil in H.
  - rewrite elem_of_app, IH. split.
    + intros [H|(i & u' & loc & Hi & Hs & ->)].
      * destruct (stage_of self w alert_location u) as [| | | |loc] eqn:E;
          try (inversion H; fail).
        apply list_elem_of_singleton in H. subst s.
        exists 0%nat, u, loc. rewrite Nat.add_0_r. auto.
      * exists (S i), u', loc. repeat split; auto. f_equal. lia.
    + intros ([|i] & u' & loc & Hi & Hs & ->).
      * injection Hi as ->. left. rewrite Hs, Nat.add_0_r.
        now apply list_elem_of_singleton.
      * right. exists i, u', loc. repeat split; auto. f_equal. lia.
Qed.

(** The scored users around the one at position [i]. *)
Lemma scored_users_split users i u loc :
  users !! i = Some u ->
  stage_of self w alert_location u = Scored loc ->
  scored_users self w alert_location 0 users
  = scored_users self w alert_location 0 (take i users)
    ++ score self w alert_location i u loc
    :: scored_users self w alert_location (S i) (drop (S i) users).
Proof.
  intros Hi Hs.
  rewrite <- (take_drop_middle users i u Hi) at 1.
  rewrite scored_users_app. cbn [scored_users]. rewrite Hs.
  assert (length (take i users) = i) as ->.
  { rewrite length_take. apply lookup_lt_Some in Hi. lia. }
  reflexivity.
Qed.

Lemma length_scored_users users idx :
  length (scored_users self w alert_location idx users)
  = count_stage is_scored self w alert_location users.
Proof.
  unfold count_stage. revert idx.
  induction users as [|u rest IH]; intros idx; [reflexivity|].
  cbn [scored_users List.filter]. rewrite length_app, IH.
  now destruct (stage_of self w alert_location u).
Qed.

(** Every user is in exactly one stage. *)
Lemma count_stage_total users :
  (count_stage is_invalid self w alert_location users
   + count_stage is_status_filtered self w alert_location users
   + count_stage is_haversine_filtered self w alert_location users
   + count_stage is_raised self w alert_location users
   + count_stage is_scored self w alert_location users)%nat
  = length users.
Proof.
  unfold count_stage.
  induction users as [|u rest IH]; [reflexivity|].
  cbn [List.filter length].
  destruct (stage_of self w alert_location u); cbn; lia.
Qed.

Lemma count_stage_raised users :
  existsb (fun u => is_raised (stage_of self w alert_location u)) users
  = false ->
  count_stage is_raised self w alert_location users = 0%nat.
Proof.
  unfold count_stage.
  induction users as [|u rest IH]; [reflexivity|].
  cbn [existsb List.filter]. intros H.
  apply orb_false_elim in H as [-> H]. auto.
Qed.





Lemma score_idx idx u loc :
  sc_idx (score self w alert_location idx u loc) = idx.
Proof.
  unfold score. now destruct (calculate_distance _ _ _ _ _) as [[? ?] ?].
Qed.

Lemma score_user idx u loc :
  sc_user (score self w alert_location idx u loc) = u.
Proof.
  unfold score. now destruct (calculate_distance _ _ _ _ _) as [[? ?] ?].
Qed.

Lemma score_key idx u loc :
  sc_key (score self w alert_location idx u loc) = key_of idx u.
Proof. unfold sc_key. now rewrite score_idx, score_user. Qed.

End Scored.

Section Maps.

Context {V : Type} (value : scored -> V).

Local Abbreviation store :=
  (fun (m : gmap user_key V) s => <[sc_key s := value s]> m).

(** The keys after the insertions. *)
Lemma dom_store l : forall m : gmap user_key V,
  dom (foldl store m l) = dom m ∪ list_to_set (sc_key <$> l).
Proof.
  induction l as [|s l IH]; intros m; cbn [foldl fmap list_fmap list_to_set].
  - now rewrite (right_id_L ∅ (∪)).
  - rewrite IH, dom_insert_L.
    rewrite (comm_L (∪) {[sc_key s]} (dom m)).
    now rewrite (assoc_L (∪)).
Qed.

(** A key keeps the value of the last insertion made under it. *)
Lemma lookup_store_last l1 s l2 (m : gmap user_key V) :
  (forall s', s' ∈ l2 -> sc_key s' <> sc_key s) ->
  foldl store m (l1 ++ s :: l2) !! sc_key s = Some (value s).
Proof.
  rewrite foldl_app. cbn [foldl].
  generalize (foldl store m l1). clear m l1.
  induction l2 as [|s' l2 IH]; intros m H; cbn [foldl].
  - apply lookup_insert_eq.
  - rewrite insert_insert_ne.
    + apply IH. intros s'' Hs''. apply H. now right.
    + intros E. apply (H s'); [now left|easy].
Qed.

End Maps.

Section Counting.

Context {A : Type}.

Lemma filter_length_split (p : A -> bool) l :
  (length (List.filter p l)
   + length (List.filter (fun x => negb (p x)) l))%nat = length l.
Proof.
  induction l as [|x l IH]; [reflexivity|].
  cbn [List.filter]. destruct (p x); cbn; lia.
Qed.

Lemma filter_length_perm (p : A -> bool) l1 l2 :
  Permutation l1 l2 ->
  length (List.filter p l1) = length (List.filter p l2).
Proof.
  induction 1 as [|x l1 l2 _ IH|x y l|l1 l2 l3 _ IH1 _ IH2];
    cbn [List.filter]; try congruence.
  - destruct (p x); cbn; congruence.
  - destruct (p x), (p y); reflexivity.
Qed.

Lemma filter_length_le (p q : A -> bool) l :
  (forall x, p x = true -> q x = true) ->
  (length (List.filter p l) <= length (List.filter q l))%nat.
Proof.
  intros H. induction l as [|x l IH]; [reflexivity|].
  cbn [List.filter]. destruct (p x) eqn:E.
  - rewrite (H _ E). cbn. lia.
  - destruct (q x); cbn; lia.
Qed.

Lemma filter_all (p : A -> bool) l :
  (forall x, p x = true) -> List.filter p l = l.
Proof.
  intros H. induction l as [|x l IH]; [reflexivity|].
  cbn [List.filter]. now rewrite H, IH.
Qed.

Lemma filter_none (p : A -> bool) l :
  (forall x, p x = false) -> List.filter p l = [].
Proof.
  intros H. induction l as [|x l IH]; [reflexivity|].
  cbn [List.filter]. now rewrite H, IH.
Qed.

End Counting.

(* ===================================================================== *)
(** * Properties of [select_nearest_available_users] *)
(* ===================================================================== *)

(** The method returns what the first loop leaves, sorted and truncated. *)
Lemma select_inv self w alert_location num_users r :
  select_nearest_available_users self w alert_location num_users = Some r ->
  exists st,
    filter_users self w alert_location = Some st
    /\ st = loop_final self w alert_location 0 (get_all_users w) loop_init
    /\ existsb (fun u => is_raised (stage_of self w alert_location u))
               (get_all_users w) = false
    /\ r_selected r
       = select_loop self num_users []
           (sort_candidates self (candidates st))
    /\ r_osrm_results_map r = osrm_results_map st
    /\ r_osrm_response_values r = osrm_response_values st
    /\ r_user_computation_times r = user_computation_times st
    /\ r_filtering_metrics r
       = {| m_total_users := length (get_all_users w);
            m_invalid_coordinates := invalid_coordinates st;
            m_status_filtered := status_filtered st;
            m_haversine_filtered := haversine_filtered st;
            m_osrm_errors := osrm_errors st;
            m_diameter_filtered := diameter_filtered st;
            m_candidates := length (candidates st);
            m_selected := length (r_selected r) |}.
Proof.
  unfold select_nearest_available_users, filter_users.
  rewrite for_users_final.
  destruct (existsb _ (get_all_users w)) eqn:E; [discriminate|].
  cbn [mbind option_bind]. intros [= <-]. cbn.
  eexists. repeat split; reflexivity.
Qed.

Lemma filter_users_inv self w alert_location st :
  filter_users self w alert_location = Some st ->
  st = loop_final self w alert_location 0 (get_all_users w) loop_init
  /\ existsb (fun u => is_raised (stage_of self w alert_location u))
             (get_all_users w) = false.
Proof.
  unfold filter_users. rewrite for_users_final.
  destruct (existsb _ (get_all_users w)); [discriminate|].
  now intros [= <-].
Qed.

Lemma sort_candidates_perm self cands :
  Permutation (sort_candidates self cands) cands.
Proof.
  unfold sort_candidates.
  destruct (bool_decide _); apply py_sorted_perm.
Qed.

Lemma available_users_length_sorted self cands :
  length (available_users self (sort_candidates self cands))
  = length (available_users self cands).
Proof.
  unfold available_users. rewrite !length_fmap.
  apply filter_length_perm, sort_candidates_perm.
Qed.

(** C1: the counters of the returned metrics add up: every user is
    counted once, as rejected for its coordinates, its status, its
    straight-line distance or its route distance, or as a candidate; a
    user counted in [osrm_errors] is also one of the last two. *)
Theorem metrics_accounting self w alert_location num_users r :
  select_nearest_available_users self w alert_location num_users = Some r ->
  let m := r_filtering_metrics r in
  m_total_users m
  = (m_invalid_coordinates m + m_status_filtered m + m_haversine_filtered m
     + m_diameter_filtered m + m_candidates m)%nat
  /\ (m_osrm_errors m <= m_diameter_filtered m + m_candidates m)%nat.
Proof.
  intros H. apply select_inv in H as (st & _ & -> & Hr & _ & _ & _ & _ & ->).
  cbn -[loop_final]. unfold loop_final, loop_init.
  cbn [candidates diameter_filtered osrm_errors invalid_coordinates
       status_filtered haversine_filtered app Nat.add].
  rewrite length_fmap.
  set (sc := scored_users self w alert_location 0 (get_all_users w)).
  pose proof (filter_length_split
                (fun s => diameter_rejects self (sc_dist s)) sc) as Hsplit.
  pose proof (length_scored_users self w alert_location (get_all_users w) 0)
    as Hsc. fold sc in Hsc.
  pose proof (count_stage_total self w alert_location (get_all_users w))
    as Htot.
  rewrite (count_stage_raised _ _ _ _ Hr) in Htot.
  pose proof (filter_length_le sc_error (fun _ => true) sc
                ltac:(reflexivity)) as Hle.
  rewrite (filter_all (fun _ => true) sc) in Hle by reflexivity.
  split; lia.
Qed.

(** A run with one user of each kind. *)
Lemma metrics_accounting_witness :
  exists r,
    select_nearest_available_users
      Examples.by_distance Examples.world_mixed Examples.alert 2 = Some r
    /\ m_total_users (r_filtering_metrics r) = 6%nat
    /\ m_total_users (r_filtering_metrics r)
       = (m_invalid_coordinates (r_filtering_metrics r)
          + m_status_filtered (r_filtering_metrics r)
          + m_haversine_filtered (r_filtering_metrics r)
          + m_diameter_filtered (r_filtering_metrics r)
          + m_candidates (r_filtering_metrics r))%nat.
Proof.
  eexists. split; [vm_compute; reflexivity|]. split; [reflexivity|].
  refine (proj1 (metrics_accounting Examples.by_distance Examples.world_mixed
                   Examples.alert 2 _ _)).
  vm_compute. reflexivity.
Defined.

(** C7: on an empty list of users the method returns, with nothing
    selected, empty maps, no response and every counter at zero. *)
Theorem empty_pool self w alert_location num_users :
  get_all_users w = [] ->
  select_nearest_available_users self w alert_location num_users
  = Some {| r_selected := [];
            r_osrm_results_map := ∅;
            r_osrm_response_values := [];
            r_total_computation_time :=
              (time_total_end w - time_total_start w)%float;
            r_user_computation_times := ∅;
            r_filtering_metrics :=
              {| m_total_users := 0;
                 m_invalid_coordinates := 0;
                 m_status_filtered := 0;
                 m_haversine_filtered := 0;
                 m_osrm_errors := 0;
                 m_diameter_filtered := 0;
                 m_candidates := 0;
                 m_selected := 0 |} |}.
Proof.
  intros H. unfold select_nearest_available_users. rewrite H. cbn.
  unfold sort_candidates. now destruct (bool_decide _).
Qed.

(** The users file cannot be read: the list of users is empty. *)
Lemma empty_pool_witness :
  get_all_users Examples.world_no_file = []
  /\ r_selected
       <$> select_nearest_available_users
             Examples.by_distance Examples.world_no_file Examples.alert 3
     = Some [].
Proof.
  split; [reflexivity|].
  rewrite (empty_pool Examples.by_distance Examples.world_no_file
             Examples.alert 3 eq_refl).
  reflexivity.
Defined.

(** C5: with a diameter, the candidates are the scored users whose
    distance is not strictly above half of it, and [diameter_filtered]
    counts the others; a distance equal to the half (5 km for a diameter
    of 10) is kept; without a diameter the test rejects nothing. *)
Theorem diameter_filter_boundary self w alert_location st :
  filter_users self w alert_location = Some st ->
  let sc := scored_users self w alert_location 0 (get_all_users w) in
  candidates st
  = (sc_candidate
       <$> List.filter (fun s => negb (diameter_rejects self (sc_dist s))) sc)
  /\ diameter_filtered st
     = length (List.filter (fun s => diameter_rejects self (sc_dist s)) sc)
  /\ (forall diameter dist,
        selection_diameter_km self = Some diameter ->
        diameter_rejects self dist = PyFloat.gt dist (diameter / 2)%float)
  /\ (forall diameter,
        selection_diameter_km self = Some diameter ->
        diameter_rejects self (diameter / 2)%float = false)
  /\ (selection_diameter_km self = Some 10%float ->
      diameter_rejects self 5%float = false)
  /\ (selection_diameter_km self = None ->
      diameter_filtered st = 0%nat /\ candidates st = sc_candidate <$> sc).
Proof.
  intros H sc. apply filter_users_inv in H as [-> _].
  unfold loop_final, loop_init.
  cbn [candidates diameter_filtered app Nat.add]. fold sc.
  repeat split.
  - intros diameter dist E. unfold diameter_rejects. now rewrite E.
  - intros diameter E. unfold diameter_rejects, PyFloat.gt. rewrite E.
    apply ltb_irrefl.
  - intros E. unfold diameter_rejects. now rewrite E.
  - unfold diameter_rejects. rewrite H. now rewrite filter_none.
  - unfold diameter_rejects. rewrite H. now rewrite filter_all.
Qed.

(** With a diameter of 10, the user at 5 km is kept and the one at 12 km
    is rejected. *)
Lemma diameter_filter_boundary_witness :
  exists st,
    filter_users Examples.by_distance Examples.world_mixed Examples.alert
    = Some st
    /\ cand_dist <$> candidates st = [2%float; 5%float]
    /\ diameter_filtered st = 2%nat
    /\ diameter_rejects Examples.by_distance 5%float = false.
Proof.
  eexists. split; [vm_compute; reflexivity|].
  split; [reflexivity|]. split; [reflexivity|].
  refine (proj1 (proj2 (proj2 (proj2 (proj2
    (diameter_filter_boundary Examples.by_distance Examples.world_mixed
       Examples.alert _ _))))) eq_refl).
  vm_compute. reflexivity.
Defined.

(** The first loop does not read [filter_only_available]. *)
Lemma for_users_filter_only_available b self w alert_location users :
  forall idx st,
    for_users (set_filter_only_available b self) w alert_location idx users st
    = for_users self w alert_location idx users st.
Proof.
  induction users as [|u rest IH]; intros idx st; [reflexivity|].
  cbn [for_users].
  replace (loop_body (set_filter_only_available b self) w alert_location
             st idx u)
    with (loop_body self w alert_location st idx u)
    by now destruct self.
  destruct (loop_body self w alert_location st idx u) as [st'|];
    [|reflexivity].
  apply IH.
Qed.

(** C6: for a positive [num_users] at most that many users are selected,
    and exactly that many when enough candidates pass the availability
    test; without the availability filter the selection is the head of
    the sorted candidates; the candidates skipped for availability stay
    in the [candidates] count and the other counters do not depend on the
    availability filter. *)
Theorem selection_length self w alert_location num_users st r :
  filter_users self w alert_location = Some st ->
  select_nearest_available_users self w alert_location num_users = Some r ->
  1 <= num_users ->
  Z.of_nat (length (r_selected r)) <= num_users
  /\ (num_users <= Z.of_nat (length (available_users self (candidates st))) ->
      Z.of_nat (length (r_selected r)) = num_users)
  /\ (filter_only_available self = false ->
      r_selected r
      = take (Z.to_nat num_users)
             (cand_user <$> sort_candidates self (candidates st)))
  /\ m_candidates (r_filtering_metrics r) = length (candidates st)
  /\ (forall b r',
        select_nearest_available_users
          (set_filter_only_available b self) w alert_location num_users
        = Some r' ->
        let m := r_filtering_metrics r in
        let m' := r_filtering_metrics r' in
        m_total_users m' = m_total_users m
        /\ m_invalid_coordinates m' = m_invalid_coordinates m
        /\ m_status_filtered m' = m_status_filtered m
        /\ m_haversine_filtered m' = m_haversine_filtered m
        /\ m_osrm_errors m' = m_osrm_errors m
        /\ m_diameter_filtered m' = m_diameter_filtered m
        /\ m_candidates m' = m_candidates m).
Proof.
  intros Hst Hr Hn.
  pose proof Hr as Hr0.
  apply select_inv in Hr as (st0 & Hst0 & _ & _ & Hsel & _ & _ & _ & Hm).
  rewrite Hst in Hst0. injection Hst0 as <-.
  rewrite select_loop_nil in Hsel.
  replace (Z.to_nat (1 `max` num_users)) with (Z.to_nat num_users) in Hsel
    by lia.
  split; [|split; [|split; [|split]]].
  - rewrite Hsel, length_take. lia.
  - intros Hc. rewrite Hsel, length_take, available_users_length_sorted. lia.
  - intros Hf. rewrite Hsel. f_equal. unfold available_users. f_equal.
    generalize (sort_candidates self (candidates st)). clear -Hf.
    induction l as [|c l IH]; [reflexivity|].
    cbn [List.filter]. unfold passes_availability at 1. rewrite Hf.
    cbn. now rewrite IH.
  - now rewrite Hm.
  - intros b r' Hr'. revert Hr0 Hr'.
    unfold select_nearest_available_users.
    rewrite for_users_filter_only_available.
    destruct (for_users self w alert_location 0 (get_all_users w) loop_init)
      as [st1|]; [|discriminate].
    cbn [mbind option_bind]. intros [= <-] [= <-]. cbn.
    repeat split.
Qed.

(** One of the two candidates of [world_mixed] is unavailable: asking for
    one user returns the other. *)
Lemma selection_length_witness :
  exists st r,
    filter_users Examples.by_distance Examples.world_mixed Examples.alert
    = Some st
    /\ select_nearest_available_users
         Examples.by_distance Examples.world_mixed Examples.alert 1 = Some r
    /\ length (candidates st) = 2%nat
    /\ Z.of_nat (length (r_selected r)) <= 1.
Proof.
  eexists. eexists.
  split; [vm_compute; reflexivity|].
  split; [vm_compute; reflexivity|].
  split; [reflexivity|].
  refine (proj1 (selection_length Examples.by_distance Examples.world_mixed
                   Examples.alert 1 _ _ _ _ _)).
  - vm_compute. reflexivity.
  - vm_compute. reflexivity.
  - lia.
Defined.

(** C10: with [num_users = 0] and a candidate that passes the
    availability test, one user is selected, the first such candidate of
    the sorted list: the bound [len(selected) <= num_users] fails. *)
Theorem zero_wanted_selects_one self w alert_location st r :
  filter_users self w alert_location = Some st ->
  select_nearest_available_users self w alert_location 0 = Some r ->
  available_users self (candidates st) <> [] ->
  length (r_selected r) = 1%nat
  /\ r_selected r
     = take 1 (available_users self (sort_candidates self (candidates st)))
  /\ ~ (Z.of_nat (length (r_selected r)) <= 0).
Proof.
  intros Hst Hr Hne.
  apply select_inv in Hr as (st0 & Hst0 & _ & _ & Hsel & _).
  rewrite Hst in Hst0. injection Hst0 as <-.
  rewrite select_loop_nil in Hsel. cbn in Hsel.
  assert (length (r_selected r) = 1%nat) as Hlen.
  { rewrite Hsel, length_take, available_users_length_sorted.
    destruct (available_users self (candidates st)); [congruence|cbn; lia]. }
  split; [assumption|]. split; [assumption|]. lia.
Qed.

(** Asking for no user in [world_mixed] returns one. *)
Lemma zero_wanted_selects_one_witness :
  exists st r,
    filter_users Examples.by_distance Examples.world_mixed Examples.alert
    = Some st
    /\ select_nearest_available_users
         Examples.by_distance Examples.world_mixed Examples.alert 0 = Some r
    /\ r_selected r = [Examples.user_b]
    /\ length (r_selected r) = 1%nat.
Proof.
  eexists. eexists.
  split; [vm_compute; reflexivity|].
  split; [vm_compute; reflexivity|].
  split; [reflexivity|].
  refine (proj1 (zero_wanted_selects_one Examples.by_distance
                   Examples.world_mixed Examples.alert _ _ _ _ _)).
  - vm_compute. reflexivity.
  - vm_compute. reflexivity.
  - vm_compute. discriminate.
Defined.




(** The candidates are the scored users that the diameter test keeps. *)
Lemma candidates_kept self w alert_location st c :
  filter_users self w alert_location = Some st ->
  c ∈ candidates st ->
  exists s,
    s ∈ scored_users self w alert_location 0 (get_all_users w)
    /\ c = sc_candidate s
    /\ diameter_rejects self (cand_dist c) = false.
Proof.
  intros H Hc. apply filter_users_inv in H as [-> _].
  unfold loop_final, loop_init in Hc. cbn [candidates app] in Hc.
  apply list_elem_of_fmap in Hc as (s & -> & Hs).
  apply list_elem_of_In, List.filter_In in Hs as [Hs Hk].
  exists s. split; [now apply list_elem_of_In|]. split; [reflexivity|].
  now apply negb_true_iff in Hk.
Qed.

(** Every selected user is the user of a candidate that passes the
    availability test. *)
Lemma selected_from_candidates self w alert_location num_users st r v :
  filter_users self w alert_location = Some st ->
  select_nearest_available_users self w alert_location num_users = Some r ->
  v ∈ r_selected r ->
  exists c,
    c ∈ candidates st /\ cand_user c = v
    /\ passes_availability self c = true.
Proof.
  intros Hst Hr Hv.
  apply select_inv in Hr as (st0 & Hst0 & _ & _ & Hsel & _).
  rewrite Hst in Hst0. injection Hst0 as <-.
  rewrite select_loop_nil in Hsel. rewrite Hsel in Hv.
  apply elem_of_take in Hv as (j & Hv & _).
  apply list_elem_of_lookup_2 in Hv.
  unfold available_users in Hv.
  apply list_elem_of_fmap in Hv as (c & -> & Hc).
  apply list_elem_of_In, List.filter_In in Hc as [Hc Hp].
  exists c. split; [|auto].
  apply list_elem_of_In.
  apply (Permutation_in _ (sort_candidates_perm self (candidates st))), Hc.
Qed.











(* ===================================================================== *)
(** * More on [calculate_distance] and the selection *)
(* ===================================================================== *)

(** [calculate_distance] does not raise: it returns the sentinel with the
    empty response when the request fails or the answer has no first
    route with a distance and a duration, and otherwise that route, in
    km and seconds, with the answer it received. *)
Theorem calculate_distance_cases self w idx loc1 loc2 :
  let '(dist, dur, full) := calculate_distance self w idx loc1 loc2 in
  (full = EmptyDict <-> osrm_call_fails self w idx loc1 loc2 = true)
  /\ (full = EmptyDict -> dist = PyFloat.inf /\ dur = PyFloat.inf)
  /\ (forall j,
        full = Json j ->
        requests_get w idx (request_of self loc1 loc2) = Some j
        /\ exists data rest metres,
             routes j = data :: rest
             /\ distance data = Some metres
             /\ duration data = Some dur
             /\ dist = (metres / 1000)%float).
Proof.
  unfold calculate_distance, osrm_call_fails, request_of.
  destruct (requests_get w idx _) as [full|];
    [|repeat split; intros; (reflexivity || discriminate)].
  destruct (routes full) as [|data rest] eqn:Hr;
    [repeat split; intros; (reflexivity || discriminate)|].
  destruct (distance data) as [metres|] eqn:Hd,
           (duration data) as [seconds|] eqn:Ht;
    try (repeat split; intros; (reflexivity || discriminate)).
  split; [split; discriminate|]. split; [discriminate|].
  intros j [= <-]. split; [reflexivity|].
  exists data, rest, metres. now rewrite Hr.
Qed.



(** What a stage [Scored] says of the user. *)
Lemma stage_of_scored self w alert_location u loc :
  stage_of self w alert_location u = Scored loc ->
  latitude u = Some loc.1 /\ longitude u = Some loc.2
  /\ status u = user_profile_selection self
  /\ (forall km,
        euclidian_filter_km self = Some km ->
        exists h,
          haversine_distance w alert_location loc = Some h
          /\ PyFloat.gt h km = false).
Proof.
  unfold stage_of.
  destruct (latitude u) as [lat|], (longitude u) as [lon|];
    try discriminate.
  destruct (bool_decide (status u = user_profile_selection self)) eqn:Hs;
    [|discriminate].
  apply bool_decide_eq_true in Hs.
  destruct (euclidian_filter_km self) as [km|].
  - destruct (haversine_distance w alert_location (lat, lon)) as [h|] eqn:Hh;
      [|discriminate].
    destruct (PyFloat.gt h km) eqn:Hg; [discriminate|].
    intros [= <-]. repeat split; try assumption.
    intros km' [= <-]. eauto.
  - intros [= <-]. repeat split; try assumption. discriminate.
Qed.

(** Every selected user comes from a position of the list whose user was
    scored and kept by the diameter test. *)
Lemma selected_origin self w alert_location num_users r v :
  select_nearest_available_users self w alert_location num_users = Some r ->
  v ∈ r_selected r ->
  exists i loc,
    get_all_users w !! i = Some v
    /\ stage_of self w alert_location v = Scored loc
    /\ diameter_rejects self
         (sc_dist (score self w alert_location i v loc)) = false
    /\ passes_availability self
         (sc_candidate (score self w alert_location i v loc)) = true.
Proof.
  intros Hr Hv.
  destruct (select_inv _ _ _ _ _ Hr) as (st & Hst & _).
  destruct (selected_from_candidates _ _ _ _ _ _ _ Hst Hr Hv)
    as (c & Hc & Hcv & Hp).
  destruct (candidates_kept _ _ _ _ _ Hst Hc) as (s & Hs & -> & Hk).
  apply elem_of_scored_users in Hs as (i & u & loc & Hi & Hu & ->).
  cbn [Nat.add] in *.
  assert (u = v) as ->.
  { rewrite <- Hcv. unfold cand_user, sc_candidate. cbn [fst snd].
    now rewrite score_user. }
  exists i, loc. repeat split; assumption.
Qed.

(** The selection never returns a user without coordinates, a user
    whose status is not the profile, a user that is not in the users
    file or, when only the available users are wanted, a user marked
    unavailable. *)
Theorem selected_passed_filters self w alert_location num_users r v :
  select_nearest_available_users self w alert_location num_users = Some r ->
  v ∈ r_selected r ->
  v ∈ get_all_users w
  /\ has_coordinates v = true
  /\ status v = user_profile_selection self
  /\ (filter_only_available self = true -> available v <> Some false).
Proof.
  intros Hr Hv.
  destruct (selected_origin _ _ _ _ _ _ Hr Hv) as (i & loc & Hi & Hs & _ & Hp).
  destruct (stage_of_scored _ _ _ _ _ Hs) as (Hlat & Hlon & Hst & _).
  split; [now apply list_elem_of_lookup_2 in Hi|].
  split; [unfold has_coordinates; now rewrite Hlat, Hlon|].
  split; [assumption|].
  intros Hf Ha. unfold passes_availability, cand_user, sc_candidate in Hp.
  cbn [fst snd] in Hp. rewrite score_user, Hf, Ha in Hp. discriminate.
Qed.

(** The user selected in [world_mixed] when three are asked
    for. *)
Lemma selected_passed_filters_witness :
  exists r,
    select_nearest_available_users
      Examples.by_distance Examples.world_mixed Examples.alert 3 = Some r
    /\ r_selected r = [Examples.user_b]
    /\ status Examples.user_b
       = user_profile_selection Examples.by_distance.
Proof.
  eexists. split; [vm_compute; reflexivity|]. split; [reflexivity|].
  refine (proj1 (proj2 (proj2
    (selected_passed_filters Examples.by_distance Examples.world_mixed
       Examples.alert 3 _ Examples.user_b _ _)))).
  - vm_compute. reflexivity.
  - now left.
Defined.

(** Every selected user stands at a position of the users file at which
    the route distance is not above half of the configured diameter and
    the straight-line distance is not above the configured pre-filter. *)
Theorem selected_within_bounds self w alert_location num_users r v :
  select_nearest_available_users self w alert_location num_users = Some r ->
  v ∈ r_selected r ->
  exists i lat lon,
    get_all_users w !! i = Some v
    /\ latitude v = Some lat /\ longitude v = Some lon
    /\ (forall diameter,
          selection_diameter_km self = Some diameter ->
          PyFloat.gt
            (calculate_distance self w i alert_location (lat, lon)).1.1
            (diameter / 2)%float = false)
    /\ (forall km,
          euclidian_filter_km self = Some km ->
          exists h,
            haversine_distance w alert_location (lat, lon) = Some h
            /\ PyFloat.gt h km = false).
Proof.
  intros Hr Hv.
  destruct (selected_origin _ _ _ _ _ _ Hr Hv)
    as (i & [lat lon] & Hi & Hs & Hk & _).
  destruct (stage_of_scored _ _ _ _ _ Hs) as (Hlat & Hlon & _ & Hh).
  exists i, lat, lon. repeat split; try assumption.
  intros diameter Hd. unfold diameter_rejects, score in Hk.
  rewrite Hd in Hk.
  now destruct (calculate_distance self w i alert_location (lat, lon))
    as [[dist dur] full].
Qed.

(** With a diameter of 10 the user selected in [world_mixed] is at 5 km. *)
Lemma selected_within_bounds_witness :
  exists r,
    select_nearest_available_users
      Examples.by_distance Examples.world_mixed Examples.alert 3 = Some r
    /\ Examples.user_b ∈ r_selected r
    /\ (calculate_distance Examples.by_distance Examples.world_mixed 4
          Examples.alert (48.25, 1.25)%float).1.1 = 5%float.
Proof.
  eexists. split; [vm_compute; reflexivity|]. split; [now left|].
  destruct (selected_within_bounds Examples.by_distance Examples.world_mixed
              Examples.alert 3 _ Examples.user_b
              ltac:(vm_compute; reflexivity) ltac:(now left))
    as (i & lat & lon & _).
  reflexivity.
Defined.

(** Two runs that differ in [num_users] only share the first loop. *)
Lemma select_same_loop self w alert_location n m r r' :
  select_nearest_available_users self w alert_location n = Some r ->
  select_nearest_available_users self w alert_location m = Some r' ->
  exists st,
    r_selected r
    = take (Z.to_nat (Z.max 1 n))
        (available_users self (sort_candidates self (candidates st)))
    /\ r_selected r'
       = take (Z.to_nat (Z.max 1 m))
           (available_users self (sort_candidates self (candidates st)))
    /\ r_osrm_results_map r' = r_osrm_results_map r
    /\ r_osrm_response_values r' = r_osrm_response_values r
    /\ r_user_computation_times r' = r_user_computation_times r
    /\ r_total_computation_time r' = r_total_computation_time r
    /\ m_candidates (r_filtering_metrics r')
       = m_candidates (r_filtering_metrics r).
Proof.
  unfold select_nearest_available_users.
  destruct (for_users self w alert_location 0 (get_all_users w) loop_init)
    as [st|]; [|discriminate].
  cbn [mbind option_bind]. intros [= <-] [= <-]. cbn.
  exists st. rewrite !select_loop_nil. repeat split.
Qed.

(** Asking for more users extends the selection and changes nothing
    else: for [1 <= n <= m] the users selected for [n] are the first [n]
    of those selected for [m], and the maps, the responses and the count
    of candidates are the same. *)
Theorem selection_prefix self w alert_location n m r r' :
  select_nearest_available_users self w alert_location n = Some r ->
  select_nearest_available_users self w alert_location m = Some r' ->
  1 <= n <= m ->
  r_selected r = take (Z.to_nat n) (r_selected r')
  /\ r_osrm_results_map r' = r_osrm_results_map r
  /\ r_osrm_response_values r' = r_osrm_response_values r
  /\ r_user_computation_times r' = r_user_computation_times r
  /\ m_candidates (r_filtering_metrics r')
     = m_candidates (r_filtering_metrics r).
Proof.
  intros Hr Hr' Hn.
  destruct (select_same_loop _ _ _ _ _ _ _ Hr Hr')
    as (st & -> & -> & Hm & Hv & Ht & _ & Hc).
  repeat split; try assumption.
  rewrite take_take. f_equal. lia.
Qed.

(** In [world_ab] the user selected alone is the first of the two. *)
Lemma selection_prefix_witness :
  exists r r',
    select_nearest_available_users
      Examples.by_distance Examples.world_ab Examples.alert 1 = Some r
    /\ select_nearest_available_users
         Examples.by_distance Examples.world_ab Examples.alert 2 = Some r'
    /\ r_selected r' = [Examples.user_b; Examples.user_a]
    /\ r_selected r = take 1 (r_selected r').
Proof.
  eexists. eexists.
  split; [vm_compute; reflexivity|].
  split; [vm_compute; reflexivity|].
  split; [reflexivity|].
  refine (proj1 (selection_prefix Examples.by_distance Examples.world_ab
                   Examples.alert 1 2 _ _ _ _ _)).
  - vm_compute. reflexivity.
  - vm_compute. reflexivity.
  - lia.
Defined.

(** A [num_users] of zero or below is served like [num_users = 1]: the
    whole result is the same. *)
Theorem nonpositive_num_users self w alert_location num_users :
  num_users <= 1 ->
  select_nearest_available_users self w alert_location num_users
  = select_nearest_available_users self w alert_location 1.
Proof.
  intros Hn. unfold select_nearest_available_users.
  destruct (for_users self w alert_location 0 (get_all_users w) loop_init)
    as [st|]; [|reflexivity].
  cbn [mbind option_bind]. rewrite !select_loop_nil.
  replace (Z.to_nat (1 `max` num_users)) with (Z.to_nat (1 `max` 1)) by lia.
  reflexivity.
Qed.

(** Asking for -3 users in [world_ab] selects the nearest one. *)
Lemma nonpositive_num_users_witness :
  r_selected
    <$> select_nearest_available_users
          Examples.by_distance Examples.world_ab Examples.alert (-3)
  = Some [Examples.user_b].
Proof.
  rewrite (nonpositive_num_users Examples.by_distance Examples.world_ab
             Examples.alert (-3) ltac:(lia)).
  reflexivity.
Defined.

(** The scored users and their routes depend on the network only
    through the requests made for them. *)
Lemma scored_users_with_network self w alert_location net users :
  forall idx,
    (forall i u loc,
       users !! i = Some u ->
       stage_of self w alert_location u = Scored loc ->
       net (idx + i)%nat (request_of self alert_location loc)
       = requests_get w (idx + i)%nat (request_of self alert_location loc)) ->
    scored_users self (with_network net w) alert_location idx users
    = scored_users self w alert_location idx users.
Proof.
  induction users as [|u rest IH]; intros idx H; [reflexivity|].
  cbn [scored_users].
  change (stage_of self (with_network net w) alert_location u)
    with (stage_of self w alert_location u).
  rewrite IH.
  2:{ intros i u' loc Hi Hs. replace (S idx + i)%nat with (idx + S i)%nat
        by lia. now apply (H (S i) u'). }
  f_equal.
  destruct (stage_of self w alert_location u) as [| | | |loc] eqn:Hs;
    try reflexivity.
  f_equal. unfold score, calculate_distance.
  change (requests_get (with_network net w)) with net.
  specialize (H 0%nat u loc eq_refl Hs). rewrite Nat.add_0_r in H.
  unfold request_of in H. now rewrite H.
Qed.

(** The OSRM is not asked about a user rejected before the call: a
    network that gives the same answers to the requests made for the
    scored users gives the same result, whatever it would answer for the
    others. *)
Theorem oracle_only_for_scored self w alert_location num_users net :
  (forall i u loc,
     get_all_users w !! i = Some u ->
     stage_of self w alert_location u = Scored loc ->
     net i (request_of self alert_location loc)
     = requests_get w i (request_of self alert_location loc)) ->
  select_nearest_available_users self (with_network net w)
    alert_location num_users
  = select_nearest_available_users self w alert_location num_users.
Proof.
  intros H. unfold select_nearest_available_users.
  change (get_all_users (with_network net w)) with (get_all_users w).
  rewrite !for_users_final.
  change (fun u => is_raised (stage_of self (with_network net w)
                                alert_location u))
    with (fun u => is_raised (stage_of self w alert_location u)).
  destruct (existsb _ (get_all_users w)); [reflexivity|].
  assert (loop_final self (with_network net w) alert_location 0
            (get_all_users w) loop_init
          = loop_final self w alert_location 0 (get_all_users w) loop_init)
    as ->; [|reflexivity].
  unfold loop_final, count_stage.
  rewrite scored_users_with_network by exact H.
  reflexivity.
Qed.

(** In [world_mixed] the first two users are rejected before the call:
    a network that differs for them only gives the same result. *)
Lemma oracle_only_for_scored_witness :
  select_nearest_available_users Examples.by_distance
    (with_network
       (fun idx q =>
          match idx with
          | 0%nat | 1%nat => Some (Examples.answer 1 1)
          | _ => Examples.net_mixed idx q
          end)
       Examples.world_mixed)
    Examples.alert 2
  = select_nearest_available_users
      Examples.by_distance Examples.world_mixed Examples.alert 2.
Proof.
  apply oracle_only_for_scored.
  intros [|[|i]] u loc Hi Hs; try reflexivity.
  - injection Hi as <-. discriminate Hs.
  - injection Hi as <-. discriminate Hs.
Defined.

Lemma score_result self w alert_location idx u loc :
  sc_result (score self w alert_location idx u loc)
  = {| distance_km :=
         (calculate_distance self w idx alert_location loc).1.1;
       duration_s :=
         (calculate_distance self w idx alert_location loc).1.2 |}.
Proof.
  unfold sc_result, score.
  now destruct (calculate_distance self w idx alert_location loc)
    as [[dist dur] full].
Qed.

(** Reading the maps back: under the key of a scored user the results
    map holds the distance and duration that [calculate_distance]
    returned for it and the time map the time measured for it, unless a
    later scored user has the same key; a key of no scored user is in
    neither map. *)
Theorem results_map_lookup self w alert_location num_users r :
  select_nearest_available_users self w alert_location num_users = Some r ->
  (forall i u loc,
     get_all_users w !! i = Some u ->
     stage_of self w alert_location u = Scored loc ->
     (forall j u',
        (i < j)%nat -> get_all_users w !! j = Some u' ->
        is_scored (stage_of self w alert_location u') = true ->
        key_of j u' <> key_of i u) ->
     r_osrm_results_map r !! key_of i u
     = Some {| distance_km :=
                 (calculate_distance self w i alert_location loc).1.1;
               duration_s :=
                 (calculate_distance self w i alert_location loc).1.2 |}
     /\ r_user_computation_times r !! key_of i u
        = Some (time_user_end w i - time_user_start w i)%float)
  /\ (forall k,
        (forall i u loc,
           get_all_users w !! i = Some u ->
           stage_of self w alert_location u = Scored loc ->
           key_of i u <> k) ->
        r_osrm_results_map r !! k = None
        /\ r_user_computation_times r !! k = None).
Proof.
  intros Hr.
  apply select_inv in Hr as (st & _ & -> & _ & _ & Hm & _ & Ht & _).
  unfold loop_final, loop_init in Hm, Ht.
  cbn [osrm_results_map user_computation_times] in Hm, Ht.
  split.
  - intros i u loc Hi Hs Hkeys.
    pose proof (scored_users_split self w alert_location _ _ _ _ Hi Hs)
      as Hsplit.
    assert (forall s',
              s' ∈ scored_users self w alert_location (S i)
                     (drop (S i) (get_all_users w)) ->
              sc_key s' <> sc_key (score self w alert_location i u loc))
      as Hlater.
    { intros s' Hs'.
      apply elem_of_scored_users in Hs' as (k & u' & loc' & Hk & Hs' & ->).
      rewrite !score_key. rewrite lookup_drop in Hk.
      apply (Hkeys _ u'); [lia|assumption|now rewrite Hs']. }
    rewrite Hm, Ht, Hsplit, <- (score_key self w alert_location i u loc).
    split.
    + rewrite (lookup_store_last sc_result) by assumption.
      now rewrite score_result.
    + rewrite (lookup_store_last (sc_time w)) by assumption.
      unfold sc_time. now rewrite score_idx.
  - intros k Hk.
    assert (k ∉ sc_key <$> scored_users self w alert_location 0
                             (get_all_users w)) as Hnot.
    { intros Hin. apply list_elem_of_fmap in Hin as (s & -> & Hs).
      apply elem_of_scored_users in Hs as (i & u & loc & Hi & Hs & ->).
      rewrite score_key in Hk. now apply (Hk i u loc). }
    split; apply not_elem_of_dom.
    + rewrite Hm, dom_store, dom_empty_L, (left_id_L ∅ (∪)).
      now rewrite elem_of_list_to_set.
    + rewrite Ht, dom_store, dom_empty_L, (left_id_L ∅ (∪)).
      now rewrite elem_of_list_to_set.
Qed.

(** In [world_ab] the map holds 5 km and 300 s for [a]; nothing is
    stored under the key 7. *)
Lemma results_map_lookup_witness :
  exists r,
    select_nearest_available_users
      Examples.by_distance Examples.world_ab Examples.alert 2 = Some r
    /\ r_osrm_results_map r !! KInt 1
       = Some {| distance_km := 5; duration_s := 300 |}
    /\ r_osrm_results_map r !! KInt 7 = None.
Proof.
  eexists. split; [vm_compute; reflexivity|].
  split; [reflexivity|].
  refine (proj1 (proj2
    (results_map_lookup Examples.by_distance Examples.world_ab
       Examples.alert 2 _ _) (KInt 7) _)).
  - vm_compute. reflexivity.
  - intros [|[|i]] u loc Hi Hs; try discriminate Hi;
      injection Hi as <-; discriminate.
Defined.

Section MoreCounting.

Context {A B : Type}.

Lemma filter_length_le_in (p q : A -> bool) l :
  (forall x, x ∈ l -> p x = true -> q x = true) ->
  (length (List.filter p l) <= length (List.filter q l))%nat.
Proof.
  induction l as [|x l IH]; intros H; [reflexivity|].
  cbn [List.filter].
  assert (length (List.filter p l) <= length (List.filter q l))%nat as IH'.
  { apply IH. intros y Hy. apply H. now right. }
  destruct (p x) eqn:E.
  - rewrite (H x ltac:(now left) E). cbn. lia.
  - destruct (q x); cbn; lia.
Qed.

Lemma length_omap_filter (f : A -> option B) l :
  length (omap f l)
  = length (List.filter (fun x => bool_decide (is_Some (f x))) l).
Proof.
  induction l as [|x l IH]; [reflexivity|].
  cbn [omap list_omap List.filter]. fold (omap f l).
  destruct (f x) as [y|].
  - rewrite bool_decide_true by eauto. cbn. now rewrite IH.
  - rewrite bool_decide_false by (intros [? ?]; discriminate). exact IH.
Qed.

End MoreCounting.

(** A failed call is counted as an error. *)
Lemma sc_failed_error self w alert_location idx users s :
  s ∈ scored_users self w alert_location idx users ->
  sc_failed s = true -> sc_error s = true.
Proof.
  intros Hs Hf.
  apply elem_of_scored_users in Hs as (i & u & loc & _ & _ & ->).
  unfold sc_failed, sc_error, score in *.
  pose proof (calculate_distance_cases self w (idx + i) alert_location loc)
    as H.
  destruct (calculate_distance self w (idx + i) alert_location loc)
    as [[dist dur] full].
  cbn in *. destruct full; [|discriminate].
  destruct H as (_ & H & _). destruct (H eq_refl) as [-> ->]. reflexivity.
Qed.

(** The accounts of the OSRM calls: [osrm_errors] counts the calls that
    returned an infinite distance or duration, the failed calls among
    them; a call leaves a response or is failed; and every call ends as
    a candidate or in [diameter_filtered]. *)
Theorem osrm_calls_accounting self w alert_location num_users r :
  select_nearest_available_users self w alert_location num_users = Some r ->
  let sc := scored_users self w alert_location 0 (get_all_users w) in
  let m := r_filtering_metrics r in
  m_osrm_errors m = length (List.filter sc_error sc)
  /\ (length (List.filter sc_failed sc) <= m_osrm_errors m)%nat
  /\ (length (r_osrm_response_values r) + length (List.filter sc_failed sc)
      = length sc)%nat
  /\ length sc = (m_diameter_filtered m + m_candidates m)%nat.
Proof.
  intros Hr sc m.
  apply select_inv in Hr as (st & _ & -> & _ & _ & _ & Hv & _ & Hm).
  subst m. rewrite Hm, Hv. unfold loop_final, loop_init.
  cbn [m_osrm_errors m_diameter_filtered m_candidates osrm_errors
       diameter_filtered candidates osrm_response_values app Nat.add].
  fold sc. rewrite length_fmap.
  split; [reflexivity|]. split; [|split].
  - apply filter_length_le_in. intros s Hs.
    exact (sc_failed_error self w alert_location 0 (get_all_users w) s Hs).
  - rewrite length_omap_filter.
    rewrite <- (filter_length_split sc_failed sc).
    rewrite Nat.add_comm. f_equal. f_equal.
    apply List.filter_ext. intros s. unfold sc_response, sc_failed.
    destruct (sc_full s).
    + now rewrite bool_decide_false by (intros [? ?]; discriminate).
    + now rewrite bool_decide_true by eauto.
  - rewrite <- (filter_length_split
                  (fun s => diameter_rejects self (sc_dist s)) sc).
    reflexivity.
Qed.

(** In [world_mixed] four calls are made; one fails. *)
Lemma osrm_calls_accounting_witness :
  exists r,
    select_nearest_available_users
      Examples.by_distance Examples.world_mixed Examples.alert 2 = Some r
    /\ m_osrm_errors (r_filtering_metrics r) = 1%nat
    /\ length (r_osrm_response_values r) = 3%nat
    /\ length (scored_users Examples.by_distance Examples.world_mixed
                 Examples.alert 0 (get_all_users Examples.world_mixed))
       = (m_diameter_filtered (r_filtering_metrics r)
          + m_candidates (r_filtering_metrics r))%nat.
Proof.
  eexists. split; [vm_compute; reflexivity|].
  split; [reflexivity|]. split; [reflexivity|].
  refine (proj2 (proj2 (proj2
    (osrm_calls_accounting Examples.by_distance Examples.world_mixed
       Examples.alert 2 _ _)))).
  vm_compute. reflexivity.
Defined.

(** The counters of the first two tests, read off the users: the users
    without a coordinate, and those with coordinates whose status is not
    the profile; and the counts are ordered, [selected <= candidates <=
    total_users]. *)
Theorem counters_exact self w alert_location num_users r :
  select_nearest_available_users self w alert_location num_users = Some r ->
  let m := r_filtering_metrics r in
  m_total_users m = length (get_all_users w)
  /\ m_invalid_coordinates m
     = length (List.filter (fun u => negb (has_coordinates u))
                 (get_all_users w))
  /\ m_status_filtered m
     = length (List.filter
                 (fun u => has_coordinates u
                           && negb (bool_decide
                                      (status u
                                       = user_profile_selection self)))
                 (get_all_users w))
  /\ m_selected m = length (r_selected r)
  /\ (m_selected m <= m_candidates m)%nat
  /\ (m_candidates m <= m_total_users m)%nat.
Proof.
  intros Hr m. pose proof Hr as Hr0.
  apply select_inv in Hr as (st & _ & Hst & Hno & Hsel & _ & _ & _ & Hm).
  subst m. rewrite Hm.
  cbn [m_total_users m_invalid_coordinates m_status_filtered m_selected
       m_candidates].
  assert (length (r_selected r) <= length (candidates st))%nat as Hsc.
  { rewrite Hsel, select_loop_nil, length_take.
    unfold available_users. rewrite length_fmap.
    pose proof (filter_length_le (passes_availability self) (fun _ => true)
                  (sort_candidates self (candidates st))
                  ltac:(reflexivity)) as Hle.
    rewrite (filter_all (fun _ => true)) in Hle by reflexivity.
    rewrite (Permutation_length (sort_candidates_perm self _)) in Hle.
    lia. }
  revert Hsc. rewrite Hst. unfold loop_final, loop_init. intros Hsc.
  cbn [invalid_coordinates status_filtered candidates app Nat.add].
  unfold count_stage.
  split; [reflexivity|]. split; [|split; [|split; [reflexivity|split]]].
  - f_equal. apply List.filter_ext. intros u.
    unfold stage_of, has_coordinates.
    destruct (latitude u), (longitude u); try reflexivity.
    destruct (bool_decide _); [|reflexivity].
    destruct (euclidian_filter_km self); [|reflexivity].
    destruct (haversine_distance _ _ _); [|reflexivity].
    now destruct (PyFloat.gt _ _).
  - f_equal. apply List.filter_ext. intros u.
    unfold stage_of, has_coordinates.
    destruct (latitude u), (longitude u); try reflexivity.
    destruct (bool_decide _); [|reflexivity].
    destruct (euclidian_filter_km self); [|reflexivity].
    destruct (haversine_distance _ _ _); [|reflexivity].
    now destruct (PyFloat.gt _ _).
  - exact Hsc.
  - rewrite length_fmap.
    pose proof (filter_length_le
                  (fun s => negb (diameter_rejects self (sc_dist s)))
                  (fun _ => true)
                  (scored_users self w alert_location 0 (get_all_users w))
                  ltac:(reflexivity)) as Hle.
    rewrite (filter_all (fun _ => true)) in Hle by reflexivity.
    rewrite length_scored_users in Hle.
    pose proof (count_stage_total self w alert_location (get_all_users w)).
    lia.
Qed.

(** In [world_mixed] one user has no longitude and one walks. *)
Lemma counters_exact_witness :
  exists r,
    select_nearest_available_users
      Examples.by_distance Examples.world_mixed Examples.alert 2 = Some r
    /\ m_invalid_coordinates (r_filtering_metrics r) = 1%nat
    /\ m_status_filtered (r_filtering_metrics r) = 1%nat
    /\ m_total_users (r_filtering_metrics r)
       = length (get_all_users Examples.world_mixed).
Proof.
  eexists. split; [vm_compute; reflexivity|].
  split; [reflexivity|]. split; [reflexivity|].
  refine (proj1 (counters_exact Examples.by_distance Examples.world_mixed
                   Examples.alert 2 _ _)).
  vm_compute. reflexivity.
Defined.

Lemma scored_users_sublist self w alert_location users : forall idx,
  sublist (sc_user <$> scored_users self w alert_location idx users) users.
Proof.
  induction users as [|u rest IH]; intros idx; [constructor|].
  cbn [scored_users].
  destruct (stage_of self w alert_location u); cbn [app];
    try (apply sublist_cons, IH).
  cbn [fmap list_fmap]. rewrite score_user. apply sublist_skip, IH.
Qed.

(** No user is selected more often than it is in the users file: the
    selection is a part of the file, up to the order; before the sort
    the candidates are in the order of the file. *)
Theorem selected_part_of_users self w alert_location num_users st r :
  filter_users self w alert_location = Some st ->
  select_nearest_available_users self w alert_location num_users = Some r ->
  sublist (cand_user <$> candidates st) (get_all_users w)
  /\ r_selected r ⊆+ get_all_users w.
Proof.
  intros Hst Hr.
  apply select_inv in Hr as (st0 & Hst0 & Hfin & _ & Hsel & _).
  rewrite Hst in Hst0. injection Hst0 as <-.
  assert (sublist (cand_user <$> candidates st) (get_all_users w)) as Hsub.
  { rewrite Hfin. unfold loop_final, loop_init. cbn [candidates app].
    rewrite <- list_fmap_compose.
    etransitivity; [|apply (scored_users_sublist self w alert_location _ 0)].
    apply fmap_sublist, filter_sublist. }
  split; [assumption|].
  rewrite Hsel, select_loop_chosen.
  etransitivity; [|apply sublist_submseteq, Hsub].
  apply fmap_submseteq.
  etransitivity;
    [apply sublist_submseteq, chosen_candidates_sublist|].
  apply Permutation_submseteq, sort_candidates_perm.
Qed.

(** In [world_ab] the two users are selected, the second first. *)
Lemma selected_part_of_users_witness :
  exists st r,
    filter_users Examples.by_distance Examples.world_ab Examples.alert
    = Some st
    /\ select_nearest_available_users
         Examples.by_distance Examples.world_ab Examples.alert 2 = Some r
    /\ r_selected r = [Examples.user_b; Examples.user_a]
    /\ r_selected r ⊆+ get_all_users Examples.world_ab.
Proof.
  eexists. eexists.
  split; [vm_compute; reflexivity|].
  split; [vm_compute; reflexivity|].
  split; [reflexivity|].
  refine (proj2 (selected_part_of_users Examples.by_distance
                   Examples.world_ab Examples.alert 2 _ _ _ _)).
  - vm_compute. reflexivity.
  - vm_compute. reflexivity.
Defined.

(** A users file that cannot be read or parsed is served like an empty
    one: nothing raises, nothing is selected, nothing is recorded and
    every counter is zero. *)
Theorem unreadable_users_file self w alert_location num_users :
  users_file w = None ->
  exists r,
    select_nearest_available_users self w alert_location num_users = Some r
    /\ r_selected r = []
    /\ r_osrm_results_map r = ∅
    /\ r_osrm_response_values r = []
    /\ r_user_computation_times r = ∅
    /\ r_filtering_metrics r
       = {| m_total_users := 0; m_invalid_coordinates := 0;
            m_status_filtered := 0; m_haversine_filtered := 0;
            m_osrm_errors := 0; m_diameter_filtered := 0;
            m_candidates := 0; m_selected := 0 |}.
Proof.
  intros H. unfold select_nearest_available_users, get_all_users.
  rewrite H. cbn. eexists. split; [reflexivity|]. cbn.
  unfold sort_candidates. now destruct (bool_decide _).
Qed.

Lemma unreadable_users_file_witness :
  users_file Examples.world_no_file = None
  /\ exists r,
       select_nearest_available_users
         Examples.by_travel_time Examples.world_no_file Examples.alert 2
       = Some r
       /\ r_selected r = [].
Proof.
  split; [reflexivity|].
  destruct (unreadable_users_file Examples.by_travel_time
              Examples.world_no_file Examples.alert 2 eq_refl)
    as (r & Hr & Hs & _).
  exists r. split; assumption.
Defined.

(** [haversine_distance] raises when the latitude of one of its
    arguments is infinite in radians: [math.sin] or [math.cos] is then
    called on an infinite value. *)
Theorem haversine_distance_infinite_latitude w loc1 loc2 :
  is_infinity (radians w loc1.1) = true
  \/ is_infinity (radians w loc2.1) = true ->
  haversine_distance w loc1 loc2 = None.
Proof.
  intros H. unfold haversine_distance, math_sin, math_cos.
  destruct (is_infinity ((radians w loc2.1 - radians w loc1.1) / 2));
    [reflexivity|]. cbn [mbind option_bind].
  destruct (float_pow w _ 2) as [p1|]; [|reflexivity].
  cbn [mbind option_bind].
  destruct (is_infinity (radians w loc1.1)) eqn:E1; [reflexivity|].
  cbn [mbind option_bind].
  destruct H as [H|H]; [discriminate|]. now rewrite H.
Qed.

(** With the radians of a latitude computed as the latitude itself, an
    infinite latitude makes [haversine_distance] raise. *)
Lemma haversine_distance_infinite_latitude_witness :
  haversine_distance Examples.world_ab Examples.alert (infinity, 1.5%float)
  = None.
Proof.
  apply haversine_distance_infinite_latitude. right. reflexivity.
Defined.



(* ===================================================================== *)
(** * Properties of [tasks/UserResponse/task.py] *)
(* ===================================================================== *)

(** [check_user_response] raises exactly when the comparison is not case
    sensitive and the accepting or the rejecting string is not set. *)
Theorem check_user_response_raises cfg lower user_response :
  check_user_response cfg lower user_response = None <->
  case_sensitive cfg = false
  /\ (accept_string cfg = None \/ reject_string cfg = None).
Proof.
  unfold check_user_response, lower_of.
  destruct (case_sensitive cfg); cbn [mbind option_bind].
  - split; [|intros [? _]; discriminate].
    repeat destruct (bool_decide _); discriminate.
  - destruct (accept_string cfg) as [a|]; cbn [mbind option_bind];
      [|split; auto].
    destruct (reject_string cfg) as [r|]; cbn [mbind option_bind];
      [|split; auto].
    split; [|intros [_ [?|?]]; discriminate].
    repeat destruct (bool_decide _); discriminate.
Qed.

(** Without rejecting string and without case, every response raises. *)
Lemma check_user_response_raises_witness :
  check_user_response (Examples.no_reject false) Examples.lower "Yes" = None
  /\ check_user_response (Examples.no_reject true) Examples.lower "Yes"
     = Some true.
Proof.
  split; [|reflexivity].
  apply check_user_response_raises. split; [reflexivity|]. now right.
Defined.

(** The answer of [check_user_response]: a response equal to the
    accepting string, both in lower case unless the comparison is case
    sensitive, is accepted, also when the rejecting string is the same;
    another response is accepted when it is not the rejecting string and
    the default is ['accept']; everything else is rejected. *)
Theorem check_user_response_decision cfg lower user_response b :
  check_user_response cfg lower user_response = Some b ->
  let norm := fun s => if case_sensitive cfg then s else lower s in
  b = true <->
  Some (norm user_response) = (norm <$> accept_string cfg)
  \/ (Some (norm user_response) <> (norm <$> reject_string cfg)
      /\ default_response cfg = Some "accept"%string).
Proof.
  unfold check_user_response, lower_of.
  destruct (case_sensitive cfg); cbn [mbind option_bind].
  - assert (forall o : option string, (fun s : string => s) <$> o = o) as Hid
      by (now intros []).
    rewrite !Hid.
    repeat case_bool_decide; intros [= <-]; split;
      try (intros; discriminate); try tauto; try (intros [?|[? ?]]; congruence).
  - destruct (accept_string cfg) as [a|]; cbn [mbind option_bind];
      [|discriminate].
    destruct (reject_string cfg) as [r|]; cbn [mbind option_bind];
      [|discriminate].
    cbn [fmap option_fmap option_map].
    repeat case_bool_decide; intros [= <-]; split;
      try (intros; discriminate); try tauto; try (intros [?|[? ?]]; congruence).
Qed.

(** "YES" is accepted against "Yes" when the case does not matter; the
    same string for both answers accepts. *)
Lemma check_user_response_decision_witness :
  check_user_response (Examples.yes_no false None) Examples.lower "YES"
  = Some true
  /\ check_user_response (Examples.yes_no true None) Examples.lower "YES"
     = Some false
  /\ check_user_response Examples.same_strings Examples.lower "Ok"
     = Some true
  /\ (true = true <->
      Some (Examples.lower "YES")
      = (Examples.lower <$> accept_string (Examples.yes_no false None))
      \/ (Some (Examples.lower "YES")
          <> (Examples.lower <$> reject_string (Examples.yes_no false None))
          /\ default_response (Examples.yes_no false None)
             = Some "accept"%string)).
Proof.
  split; [reflexivity|]. split; [reflexivity|]. split; [reflexivity|].
  exact (check_user_response_decision (Examples.yes_no false None)
           Examples.lower "YES" true eq_refl).
Defined.

Section Responses.

Variable random : nat -> float.

Lemma simulate_responses_acc users : forall idx acc,
  simulate_responses random idx users acc
  = acc ++ ((fun u => {| uwr_user := u; uwr_accepted := true |})
              <$> accepted_from random idx users).
Proof.
  induction users as [|u rest IH]; intros idx acc;
    cbn [simulate_responses accepted_from].
  - now rewrite app_nil_r.
  - rewrite IH. destruct (random idx <? acceptance_rate)%float.
    + now rewrite <- app_assoc.
    + reflexivity.
Qed.

Lemma elem_of_accepted_from users : forall idx u,
  u ∈ accepted_from random idx users <->
  exists i,
    users !! i = Some u
    /\ (random (idx + i)%nat <? acceptance_rate)%float = true.
Proof.
  induction users as [|v rest IH]; intros idx u; cbn [accepted_from].
  - split; [intros H; inversion H|intros (i & H & _)].
    now rewrite lookup_nil in H.
  - assert ((exists i, (v :: rest) !! i = Some u
                       /\ (random (idx + i)%nat <? acceptance_rate)%float
                          = true)
            <-> (v = u /\ (random idx <? acceptance_rate)%float = true)
                \/ exists i, rest !! i = Some u
                             /\ (random (S idx + i)%nat <? acceptance_rate)%float
                                = true) as ->.
    { split.
      - intros ([|i] & Hi & Hr).
        + left. rewrite Nat.add_0_r in Hr. now injection Hi.
        + right. exists i. split; [exact Hi|].
          now replace (S idx + i)%nat with (idx + S i)%nat by lia.
      - intros [[-> Hr]|(i & Hi & Hr)].
        + exists 0%nat. now rewrite Nat.add_0_r.
        + exists (S i). split; [exact Hi|].
          now replace (idx + S i)%nat with (S idx + i)%nat by lia. }
    rewrite <- IH.
    destruct (random idx <? acceptance_rate)%float.
    + rewrite elem_of_cons. split.
      * intros [->|H]; [now left|now right].
      * intros [[-> _]|H]; [now left|now right].
    + split; [now right|]. intros [[_ H]|H]; [discriminate H|exact H].
Qed.

Lemma accepted_from_sublist users : forall idx,
  sublist (accepted_from random idx users) users.
Proof.
  induction users as [|v rest IH]; intros idx; cbn [accepted_from];
    [constructor|].
  destruct (random idx <? acceptance_rate)%float; constructor; apply IH.
Qed.

Lemma accepted_from_all users : forall idx,
  (forall i, (i < length users)%nat ->
             (random (idx + i)%nat <? acceptance_rate)%float = true) ->
  accepted_from random idx users = users.
Proof.
  induction users as [|v rest IH]; intros idx H; cbn [accepted_from];
    [reflexivity|].
  pose proof (H 0%nat ltac:(cbn; lia)) as H0. rewrite Nat.add_0_r in H0.
  rewrite H0. f_equal. apply IH. intros i Hi.
  replace (S idx + i)%nat with (idx + S i)%nat by lia.
  apply H. cbn. lia.
Qed.

End Responses.

(** [process_selected_users] returns, in their order, the users whose
    draw is below 0.8, each with ['accepted'] true: a user is in the
    result exactly when it stands at a position with such a draw; all of
    them are when every draw is; and the result is empty when the
    argument is not JSON. *)
Theorem process_selected_users_accepted random loaded :
  let users := default [] loaded in
  let out := process_selected_users random loaded in
  Forall (fun a => uwr_accepted a = true) out
  /\ sublist (uwr_user <$> out) users
  /\ (forall u,
        u ∈ (uwr_user <$> out) <->
        exists i,
          users !! i = Some u
          /\ (random i <? acceptance_rate)%float = true)
  /\ ((forall i, (i < length users)%nat ->
                 (random i <? acceptance_rate)%float = true) ->
      uwr_user <$> out = users)
  /\ (loaded = None -> out = []).
Proof.
  intros users out.
  assert (out = (fun u => {| uwr_user := u; uwr_accepted := true |})
                  <$> accepted_from random 0 users) as Hout.
  { unfold out, users, process_selected_users.
    destruct loaded as [l|]; [|reflexivity].
    now rewrite simulate_responses_acc. }
  assert (uwr_user <$> out = accepted_from random 0 users) as Husers.
  { rewrite Hout, <- list_fmap_compose. apply list_fmap_id. }
  split; [|split; [|split; [|split]]].
  - rewrite Hout. apply Forall_fmap, Forall_forall. reflexivity.
  - rewrite Husers. apply accepted_from_sublist.
  - intros u. rewrite Husers. apply (elem_of_accepted_from random users 0).
  - intros H. rewrite Husers. now apply accepted_from_all.
  - intros ->. reflexivity.
Qed.

(** With the draws 0.5, 0.875 and 0.25 the first and the third of three
    users accept. *)
Lemma process_selected_users_accepted_witness :
  uwr_user
    <$> process_selected_users Examples.draws
          (Some [Examples.user_a; Examples.user_b; Examples.user_c])
  = [Examples.user_a; Examples.user_c]
  /\ sublist
       (uwr_user
          <$> process_selected_users Examples.draws
                (Some [Examples.user_a; Examples.user_b; Examples.user_c]))
       [Examples.user_a; Examples.user_b; Examples.user_c].
Proof.
  split; [reflexivity|].
  exact (proj1 (proj2
    (process_selected_users_accepted Examples.draws
       (Some [Examples.user_a; Examples.user_b; Examples.user_c])))).
Defined.

(** The two tasks in a row: when the second one loads the list that the
    first one selected, every user it returns is flagged accepted and is
    a selected user, so a user of the file with its coordinates and the
    status of the profile, and not marked unavailable when only the
    available users are wanted. *)
Theorem accepted_users_were_selected
    self w alert_location num_users r random a :
  select_nearest_available_users self w alert_location num_users = Some r ->
  a ∈ process_selected_users random (Some (r_selected r)) ->
  uwr_accepted a = true
  /\ uwr_user a ∈ r_selected r
  /\ uwr_user a ∈ get_all_users w
  /\ has_coordinates (uwr_user a) = true
  /\ status (uwr_user a) = user_profile_selection self
  /\ (filter_only_available self = true ->
      available (uwr_user a) <> Some false).
Proof.
  intros Hr Ha.
  unfold process_selected_users in Ha.
  rewrite simulate_responses_acc in Ha. cbn [app] in Ha.
  apply list_elem_of_fmap in Ha as (u & -> & Hu). cbn [uwr_user uwr_accepted].
  apply elem_of_accepted_from in Hu as (i & Hi & _).
  apply list_elem_of_lookup_2 in Hi.
  split; [reflexivity|]. split; [assumption|].
  destruct (selected_origin _ _ _ _ _ _ Hr Hi) as (j & loc & Hj & Hs & _ & Hp).
  destruct (stage_of_scored _ _ _ _ _ Hs) as (Hlat & Hlon & Hst & _).
  split; [now apply list_elem_of_lookup_2 in Hj|].
  split; [unfold has_coordinates; now rewrite Hlat, Hlon|].
  split; [assumption|].
  intros Hf Hav. unfold passes_availability, cand_user, sc_candidate in Hp.
  cbn [fst snd] in Hp. rewrite score_user, Hf, Hav in Hp. discriminate.
Qed.

(** The two users selected in [world_ab], with a draw of 0.5 for the
    first of them. *)
Lemma accepted_users_were_selected_witness :
  exists r,
    select_nearest_available_users
      Examples.by_distance Examples.world_ab Examples.alert 2 = Some r
    /\ uwr_user
         <$> process_selected_users Examples.draws (Some (r_selected r))
       = [Examples.user_b]
    /\ status Examples.user_b = user_profile_selection Examples.by_distance.
Proof.
  eexists. split; [vm_compute; reflexivity|]. split; [reflexivity|].
  refine (proj1 (proj2 (proj2 (proj2 (proj2
    (accepted_users_were_selected Examples.by_distance Examples.world_ab
       Examples.alert 2 _ Examples.draws
       {| uwr_user := Examples.user_b; uwr_accepted := true |} _ _)))))).
  - vm_compute. reflexivity.
  - now left.
Defined.
